(** * pygpstime: the GPS time-synchronisation engine of [pygpstime.py]

  A shallow embedding of the program's core: the clock domain bridge
  ([perf_to_system_time]), the sentence decoder
  ([convert_nmea_to_datetime] and the guards of [gps_thread_loop]), the
  offset computation, [sync_time] with the two clock-setting operations
  [set_system_time_utc] / [set_system_time_local], and the timer chain of
  [schedule_auto_sync] / [auto_sync_callback].

  Modelling conventions.
  - A naive [datetime] is the number of microseconds since
    0001-01-01T00:00:00 in the proleptic Gregorian calendar; its fields
    ([year], [month], ...) are computed by the calendar algorithm of the
    [datetime] library.  Values are assumed to stay inside the range of
    the library and of the platform, so that date arithmetic and zone
    conversion do not raise.
  - [time.perf_counter()] readings and the other Python floats are exact
    rationals ([Q]); binary64 rounding is outside the model.
    [timedelta(seconds=x)] rounds to the nearest microsecond, ties to even,
    as the library documents.
  - What the program obtains from its collaborators is a parameter: the
    NMEA parser [pynmea2.parse], [datetime.strptime], the UTC offsets of
    the process's time zone, and the outcome of every serial and Win32
    call.  An attribute of a parsed sentence is [None], a converted value,
    or the text of the field when its converter raises; on such a text
    [datetime.combine] raises [TypeError], which the reader loop handles as
    a read error.
  - The number entered as the interval is a float that may be [nan] or an
    infinity, on which [int] raises; the interval of the loaded
    configuration is a number.
  - The GUI thread and the reader thread are interleaved at the
    granularity of one callback and one loop iteration.  What the program
    does is recorded, in order, in the field [out] of the state; the entry
    [SyncCalled] marks a call of [sync_time] and its argument.
  - File and widget plumbing ([save_config], [refresh_ports], the display
    loop, the baud rate) is left out: no property below reads it. *)

From Stdlib Require Import ZArith QArith Qround Qabs String Ascii List Bool Lia Lqa.
Import ListNotations.

#[local] Open Scope string_scope.
#[local] Open Scope Z_scope.

(** ** Python strings *)

Module PyStr.

(** [str.startswith] *)
Definition startswith (s p : string) : bool := String.prefix p s.

(** [needle in s] *)
Fixpoint contains (needle s : string) : bool :=
  String.prefix needle s ||
  match s with
  | EmptyString => false
  | String _ s' => contains needle s'
  end.

(** [s.replace(old, new)] for a non-empty [old]: the occurrences are
    replaced from left to right without overlap; [skip] counts the
    characters of a matched occurrence still to be dropped. *)
Fixpoint replace_from (skip : nat) (old new s : string) : string :=
  match s with
  | EmptyString => EmptyString
  | String c s' =>
      match skip with
      | S k => replace_from k old new s'
      | O =>
          if String.prefix old s
          then new ++ replace_from (String.length old - 1) old new s'
          else String c (replace_from O old new s')
      end
  end.

Definition replace (s old new : string) : string := replace_from O old new s.

(** The ASCII characters for which [str.isspace] holds. *)
Definition isspace (c : ascii) : bool :=
  let n := Z.of_nat (nat_of_ascii c) in
  ((9 <=? n) && (n <=? 13)) || ((28 <=? n) && (n <=? 32)).

Fixpoint lstrip (s : string) : string :=
  match s with
  | EmptyString => EmptyString
  | String c s' => if isspace c then lstrip s' else s
  end.

Fixpoint rstrip (s : string) : string :=
  match s with
  | EmptyString => EmptyString
  | String c s' =>
      match rstrip s' with
      | EmptyString => if isspace c then EmptyString else String c EmptyString
      | r => String c r
      end
  end.

(** [str.strip] *)
Definition strip (s : string) : string := rstrip (lstrip s).

(** Truthiness of a string: [not line] is [negb (truthy line)]. *)
Definition truthy (s : string) : bool :=
  match s with EmptyString => false | _ => true end.

Definition digit (d : Z) : ascii := ascii_of_nat (48 + Z.to_nat d).

(** The [w] low decimal digits of [n], zero padded (["%02d"], ["%04d"],
    ["%06d"] on values that fit). *)
Fixpoint zfill (w : nat) (n : Z) (acc : string) : string :=
  match w with
  | O => acc
  | S w' => zfill w' (n / 10) (String (digit (n mod 10)) acc)
  end.

End PyStr.

(** ** The [datetime] library *)

Module Calendar.

Definition is_leap (y : Z) : bool :=
  (y mod 4 =? 0) && (negb (y mod 100 =? 0) || (y mod 400 =? 0)).

Definition days_before_year (y : Z) : Z :=
  let p := y - 1 in p * 365 + p / 4 - p / 100 + p / 400.

Definition days_in_month (leap : bool) (m : Z) : Z :=
  match m with
  | 1 => 31 | 2 => if leap then 29 else 28 | 3 => 31 | 4 => 30 | 5 => 31
  | 6 => 30 | 7 => 31 | 8 => 31 | 9 => 30 | 10 => 31 | 11 => 30 | _ => 31
  end.

(** [_DAYS_BEFORE_MONTH[m] + (m > 2 and leap)] *)
Definition days_before_month (leap : bool) (m : Z) : Z :=
  match m with
  | 1 => 0 | 2 => 31 | 3 => 59 | 4 => 90 | 5 => 120 | 6 => 151 | 7 => 181
  | 8 => 212 | 9 => 243 | 10 => 273 | 11 => 304 | _ => 334
  end + (if (2 <? m) && leap then 1 else 0).

(** [_ymd2ord]: 0001-01-01 is day 1. *)
Definition ymd2ord (y m d : Z) : Z :=
  days_before_year y + days_before_month (is_leap y) m + d.

Definition DI400Y : Z := 146097.
Definition DI100Y : Z := 36524.
Definition DI4Y : Z := 1461.

(** [_ord2ymd] *)
Definition ord2ymd (ordinal : Z) : Z * Z * Z :=
  let n := ordinal - 1 in
  let n400 := n / DI400Y in
  let n := n mod DI400Y in
  let n100 := n / DI100Y in
  let n := n mod DI100Y in
  let n4 := n / DI4Y in
  let n := n mod DI4Y in
  let n1 := n / 365 in
  let n := n mod 365 in
  let y := n400 * 400 + 1 + n100 * 100 + n4 * 4 + n1 in
  if (n1 =? 4) || (n100 =? 4) then (y - 1, 12, 31)
  else
    let leapyear := (n1 =? 3) && (negb (n4 =? 24) || (n100 =? 3)) in
    let m := Z.shiftr (n + 50) 5 in
    let preceding := days_before_month leapyear m in
    if n <? preceding
    then
      let m' := m - 1 in
      let preceding' := preceding - days_in_month leapyear m' in
      (y, m', n - preceding' + 1)
    else (y, m, n - preceding + 1).

End Calendar.

(** A naive date-time: microseconds since 0001-01-01T00:00:00. *)
Definition datetime : Type := Z.
(** A duration in microseconds. *)
Definition timedelta : Type := Z.
(** A calendar date, as its proleptic Gregorian ordinal. *)
Definition date : Type := Z.
(** A time of day in microseconds since midnight. *)
Definition timeofday : Type := Z.

Module Datetime.

Definition us_per_second : Z := 1000000.
Definition us_per_day : Z := 86400 * us_per_second.

Definition mkdate (y m d : Z) : date := Calendar.ymd2ord y m d.

Definition mktime (h mi s us : Z) : timeofday :=
  ((h * 60 + mi) * 60 + s) * us_per_second + us.

(** [datetime.combine(d, t)] *)
Definition combine (d : date) (t : timeofday) : datetime :=
  (d - 1) * us_per_day + t.

Definition mk (y m d h mi s us : Z) : datetime :=
  combine (mkdate y m d) (mktime h mi s us).

Definition toordinal (dt : datetime) : Z := dt / us_per_day + 1.
Definition timepart (dt : datetime) : timeofday := dt mod us_per_day.

Definition year (dt : datetime) : Z :=
  let '(y, _, _) := Calendar.ord2ymd (toordinal dt) in y.
Definition month (dt : datetime) : Z :=
  let '(_, m, _) := Calendar.ord2ymd (toordinal dt) in m.
Definition day (dt : datetime) : Z :=
  let '(_, _, d) := Calendar.ord2ymd (toordinal dt) in d.
Definition hour (dt : datetime) : Z := timepart dt / (3600 * us_per_second).
Definition minute (dt : datetime) : Z := (timepart dt / (60 * us_per_second)) mod 60.
Definition second (dt : datetime) : Z := (timepart dt / us_per_second) mod 60.
Definition microsecond (dt : datetime) : Z := dt mod us_per_second.

(** [a + td] and [a - b] on naive values. *)
Definition add (a : datetime) (td : timedelta) : datetime := a + td.
Definition sub (a b : datetime) : timedelta := a - b.

(** Round to the nearest integer, ties to even. *)
Definition round_half_even (q : Q) : Z :=
  let f := Qfloor q in
  match Qcompare (q - inject_Z f) (1 # 2) with
  | Lt => f
  | Gt => f + 1
  | Eq => if Z.even f then f else f + 1
  end.

(** [timedelta(seconds=x)] for a float [x]. *)
Definition timedelta_of_seconds (x : Q) : timedelta :=
  round_half_even (x * inject_Z us_per_second).

(** [td.total_seconds()] *)
Definition total_seconds (td : timedelta) : Q := Qmake td 1000000.

(** ["%Y-%m-%d %H:%M:%S"] *)
Definition fmt_ymd_hms (sep : string) (dt : datetime) : string :=
  PyStr.zfill 4 (year dt) "" ++ "-" ++ PyStr.zfill 2 (month dt) "" ++ "-" ++
  PyStr.zfill 2 (day dt) "" ++ sep ++
  PyStr.zfill 2 (hour dt) "" ++ ":" ++ PyStr.zfill 2 (minute dt) "" ++ ":" ++
  PyStr.zfill 2 (second dt) "".

(** [dt.strftime("%Y-%m-%d %H:%M:%S UTC")] *)
Definition strftime_utc (dt : datetime) : string := fmt_ymd_hms " " dt ++ " UTC".

(** [dt.isoformat()] of a naive value. *)
Definition isoformat (dt : datetime) : string :=
  fmt_ymd_hms "T" dt ++
  (if microsecond dt =? 0 then "" else "." ++ PyStr.zfill 6 (microsecond dt) "").

(** An offset-aware date-time: the wall-clock reading together with the
    UTC offset of its [tzinfo]. *)
Record aware : Type := mkAware { wall : datetime; utcoff : timedelta }.

(** The absolute instant of an aware value, as a naive UTC date-time. *)
Definition instant (a : aware) : datetime := wall a - utcoff a.

(** [dt.replace(tzinfo=datetime.timezone.utc)] *)
Definition replace_tzinfo_utc (dt : datetime) : aware := mkAware dt 0.

(** [a.replace(tzinfo=None)] *)
Definition replace_tzinfo_none (a : aware) : datetime := wall a.

(** [a - b] on aware values whose [tzinfo] objects differ: both are taken
    to UTC first.  [astimezone()] builds a fresh [timezone] object at every
    call, so this is the case of the program. *)
Definition aware_sub (a b : aware) : timedelta := sub (instant a) (instant b).

End Datetime.

(** One past the last instant of year 9999. *)
Definition datetime_end : Z := 3652059 * Datetime.us_per_day.

(** ** Collaborators *)

(** An attribute of a parsed sentence as [pynmea2] hands it out: [None]
    for an empty field, the converted value, or, when the converter of the
    field raises, the text of the field as it stands in the sentence. *)
Inductive nmea_field (A : Type) : Type :=
| FieldNone
| FieldValue (v : A)
| FieldText (raw : string).

Arguments FieldNone {A}.
Arguments FieldValue {A} v.
Arguments FieldText {A} raw.

(** Truthiness of an attribute: [None] and the empty text are false, a
    [date] and a [time] are true. *)
Definition field_truthy {A : Type} (f : nmea_field A) : bool :=
  match f with
  | FieldNone => false
  | FieldValue _ => true
  | FieldText raw => PyStr.truthy raw
  end.

(** The fields of a parsed RMC sentence that the program reads. *)
Record RMC : Type := mkRMC {
  is_valid : bool;
  datestamp : nmea_field date;
  timestamp : nmea_field timeofday
}.

(** Outcome of [pynmea2.parse(line)]: a message, or [pynmea2.ParseError]
    (checksum or syntax failure). *)
Inductive parse_result : Type :=
| Parsed (msg : RMC)
| ParseError.

(** What the process's libraries and platform provide. *)
Class Collaborators : Type := {
  (** [pynmea2.parse] *)
  pynmea2_parse : string -> parse_result;
  (** [datetime.datetime.strptime(data, format)]; [None] is [ValueError]. *)
  strptime : string -> string -> option datetime;
  (** UTC offset of the process's zone at a UTC instant. *)
  utcoffset_of_utc : datetime -> timedelta;
  (** UTC offset the platform assigns to a naive local reading. *)
  utcoffset_of_local : datetime -> timedelta;
  (** Formatting of a finite float inside an f-string. *)
  float_repr : Q -> string;
  (** [str(e)] for the [TypeError] that [datetime.datetime.combine] raises
      when its argument 1 or 2 is a [str]. *)
  combine_TypeError : Z -> string
}.

(** Outcome of a call made through [ctypes], and of opening the port. *)
Inductive call_outcome : Type :=
| Returns
| Raises (e : string).

(** ** Windows [SYSTEMTIME] *)

Definition WORD (z : Z) : Z := z mod 65536.

Record SYSTEMTIME : Type := mkSYSTEMTIME {
  wYear : Z;
  wMonth : Z;
  wDayOfWeek : Z;
  wDay : Z;
  wHour : Z;
  wMinute : Z;
  wSecond : Z;
  wMilliseconds : Z
}.

(** The structure that [set_system_time_utc] and [set_system_time_local]
    fill from their argument. *)
Definition fill_SYSTEMTIME (dt : datetime) : SYSTEMTIME :=
  {| wYear := WORD (Datetime.year dt);
     wMonth := WORD (Datetime.month dt);
     wDay := WORD (Datetime.day dt);
     wDayOfWeek := WORD 0;
     wHour := WORD (Datetime.hour dt);
     wMinute := WORD (Datetime.minute dt);
     wSecond := WORD (Datetime.second dt);
     wMilliseconds := WORD (Datetime.microsecond dt / 1000) |}.

(** ** Observable actions *)

Inductive effect : Type :=
| LogStatus (message : string)             (* self.log_status(message) *)
| ShowError (title message : string)       (* messagebox.showerror(title, message) *)
| SetSystemTime (st : SYSTEMTIME)          (* kernel32.SetSystemTime(byref(st)) *)
| SetLocalTime (st : SYSTEMTIME)           (* kernel32.SetLocalTime(byref(st)) *)
| SerialOpen (port : string)               (* serial.Serial(port, ...) *)
| SerialClose                              (* self.ser.close() *)
| Sleep (seconds : Z)                      (* time.sleep(seconds) *)
| SyncCalled (gps_utc : option datetime).  (* entry into sync_time(gps_utc) *)

Definition is_clock_mutation (e : effect) : bool :=
  match e with
  | SetSystemTime _ | SetLocalTime _ => true
  | _ => false
  end.

(** Calls [self.sync_time(gps_utc)] made by the reader thread: the only
    calls that pass an argument. *)
Definition is_auto_sync (e : effect) : bool :=
  match e with
  | SyncCalled (Some _) => true
  | _ => false
  end.

(** ** The clock-setting boundary *)

(** [set_system_time_utc(dt_utc)]: the call it makes, and the [OSError] it
    raises when the call through [ctypes] raises. *)
Definition set_system_time_utc (ctypes : call_outcome) (dt_utc : datetime)
  : list effect * option string :=
  let st := fill_SYSTEMTIME dt_utc in
  match ctypes with
  | Returns => ([SetSystemTime st], None)
  | Raises e => ([SetSystemTime st], Some ("Failed to set system time (UTC): " ++ e))
  end.

(** [set_system_time_local(dt_local)] *)
Definition set_system_time_local (ctypes : call_outcome) (dt_local : datetime)
  : list effect * option string :=
  let st := fill_SYSTEMTIME dt_local in
  match ctypes with
  | Returns => ([SetLocalTime st], None)
  | Raises e => ([SetLocalTime st], Some ("Failed to set system time (Local): " ++ e))
  end.

(** ** Python floats *)

(** [int(x)] on a finite float: truncation towards zero. *)
Definition py_int (x : Q) : Z := Z.quot (Qnum x) (Zpos (Qden x)).

(** A Python float: a finite number, an infinity or [nan]. *)
Inductive pyfloat : Type :=
| Finite (q : Q)
| Infinity (negative : bool)
| NaN.

(** [x * k] for a float [x] and a positive integer literal [k]. *)
Definition float_scale (x : pyfloat) (k : positive) : pyfloat :=
  match x with
  | Finite q => Finite (q * (Zpos k # 1))
  | Infinity negative => Infinity negative
  | NaN => NaN
  end.

(** The exceptions of [int(x)] on a float. *)
Inductive int_error : Type :=
| ValueError      (* cannot convert float NaN to integer *)
| OverflowError.  (* cannot convert float infinity to integer *)

(** [int(x)] on a float. *)
Definition int_of_float (x : pyfloat) : Z + int_error :=
  match x with
  | Finite q => inl (py_int q)
  | Infinity _ => inr OverflowError
  | NaN => inr ValueError
  end.

(** [f"{x}"] for a float. *)
Definition format_float (repr : Q -> string) (x : pyfloat) : string :=
  match x with
  | Finite q => repr q
  | Infinity false => "inf"
  | Infinity true => "-inf"
  | NaN => "nan"
  end.

(** ** Application state *)

Record Config : Type := mkConfig {
  com_port : string;
  auto_connect_sync : bool;
  sync_interval_minutes : option Q;   (* a number; [None]: the key is absent *)
  use_local_time : bool;
  baud_rate : string
}.

Record App : Type := mkApp {
  config_sync_interval_minutes : option pyfloat;
  config_com_port : string;
  selected_port : string;
  selected_baud : string;
  auto_connect_var : bool;
  use_local_time_var : bool;
  gps_time_str : string;
  last_gps_utc : option datetime;
  last_delta_sec : option Q;
  perf_base : Q;
  time_base : datetime;
  keep_reading : bool;
  (** [Some f]: the reader thread is alive and its local variable
      [first_valid_time_received] holds [f]. *)
  read_thread : option bool;
  ser_open : bool;
  (** Delays of the pending [root.after(ms, self.auto_sync_callback)]. *)
  timers : list Z;
  (** Everything done so far, oldest first. *)
  out : list effect
}.

Definition set_config_sync_interval_minutes (v : option pyfloat) (a : App) : App :=
  mkApp v (config_com_port a) (selected_port a) (selected_baud a)
    (auto_connect_var a) (use_local_time_var a) (gps_time_str a) (last_gps_utc a)
    (last_delta_sec a) (perf_base a) (time_base a) (keep_reading a) (read_thread a)
    (ser_open a) (timers a) (out a).

Definition set_config_com_port (v : string) (a : App) : App :=
  mkApp (config_sync_interval_minutes a) v (selected_port a) (selected_baud a)
    (auto_connect_var a) (use_local_time_var a) (gps_time_str a) (last_gps_utc a)
    (last_delta_sec a) (perf_base a) (time_base a) (keep_reading a) (read_thread a)
    (ser_open a) (timers a) (out a).

Definition set_auto_connect_var (v : bool) (a : App) : App :=
  mkApp (config_sync_interval_minutes a) (config_com_port a) (selected_port a)
    (selected_baud a) v (use_local_time_var a) (gps_time_str a) (last_gps_utc a)
    (last_delta_sec a) (perf_base a) (time_base a) (keep_reading a) (read_thread a)
    (ser_open a) (timers a) (out a).

Definition set_use_local_time_var (v : bool) (a : App) : App :=
  mkApp (config_sync_interval_minutes a) (config_com_port a) (selected_port a)
    (selected_baud a) (auto_connect_var a) v (gps_time_str a) (last_gps_utc a)
    (last_delta_sec a) (perf_base a) (time_base a) (keep_reading a) (read_thread a)
    (ser_open a) (timers a) (out a).

Definition set_gps_time_str (v : string) (a : App) : App :=
  mkApp (config_sync_interval_minutes a) (config_com_port a) (selected_port a)
    (selected_baud a) (auto_connect_var a) (use_local_time_var a) v (last_gps_utc a)
    (last_delta_sec a) (perf_base a) (time_base a) (keep_reading a) (read_thread a)
    (ser_open a) (timers a) (out a).

Definition set_last_gps_utc (v : option datetime) (a : App) : App :=
  mkApp (config_sync_interval_minutes a) (config_com_port a) (selected_port a)
    (selected_baud a) (auto_connect_var a) (use_local_time_var a) (gps_time_str a) v
    (last_delta_sec a) (perf_base a) (time_base a) (keep_reading a) (read_thread a)
    (ser_open a) (timers a) (out a).

Definition set_last_delta_sec (v : option Q) (a : App) : App :=
  mkApp (config_sync_interval_minutes a) (config_com_port a) (selected_port a)
    (selected_baud a) (auto_connect_var a) (use_local_time_var a) (gps_time_str a)
    (last_gps_utc a) v (perf_base a) (time_base a) (keep_reading a) (read_thread a)
    (ser_open a) (timers a) (out a).

Definition set_keep_reading (v : bool) (a : App) : App :=
  mkApp (config_sync_interval_minutes a) (config_com_port a) (selected_port a)
    (selected_baud a) (auto_connect_var a) (use_local_time_var a) (gps_time_str a)
    (last_gps_utc a) (last_delta_sec a) (perf_base a) (time_base a) v (read_thread a)
    (ser_open a) (timers a) (out a).

Definition set_read_thread (v : option bool) (a : App) : App :=
  mkApp (config_sync_interval_minutes a) (config_com_port a) (selected_port a)
    (selected_baud a) (auto_connect_var a) (use_local_time_var a) (gps_time_str a)
    (last_gps_utc a) (last_delta_sec a) (perf_base a) (time_base a) (keep_reading a) v
    (ser_open a) (timers a) (out a).

Definition set_ser_open (v : bool) (a : App) : App :=
  mkApp (config_sync_interval_minutes a) (config_com_port a) (selected_port a)
    (selected_baud a) (auto_connect_var a) (use_local_time_var a) (gps_time_str a)
    (last_gps_utc a) (last_delta_sec a) (perf_base a) (time_base a) (keep_reading a)
    (read_thread a) v (timers a) (out a).

Definition set_timers (v : list Z) (a : App) : App :=
  mkApp (config_sync_interval_minutes a) (config_com_port a) (selected_port a)
    (selected_baud a) (auto_connect_var a) (use_local_time_var a) (gps_time_str a)
    (last_gps_utc a) (last_delta_sec a) (perf_base a) (time_base a) (keep_reading a)
    (read_thread a) (ser_open a) v (out a).

Definition set_out (v : list effect) (a : App) : App :=
  mkApp (config_sync_interval_minutes a) (config_com_port a) (selected_port a)
    (selected_baud a) (auto_connect_var a) (use_local_time_var a) (gps_time_str a)
    (last_gps_utc a) (last_delta_sec a) (perf_base a) (time_base a) (keep_reading a)
    (read_thread a) (ser_open a) (timers a) v.

(** Perform the actions [es], in order. *)
Definition emit (es : list effect) (a : App) : App :=
  set_out (out a ++ es)%list a.

(** [self.log_status(message)] *)
Definition log_status (message : string) (a : App) : App :=
  emit [LogStatus message] a.

(** ** The program *)

(** How the statements of lines 281-314 end for one line: they fall
    through, with the local [first_valid_time_received], or an exception
    other than [pynmea2.ParseError] leaves them, with its [str(e)]. *)
Inductive completion : Type :=
| Normal (first_valid_time_received : bool)
| Raised (e : string).

(** What [convert_nmea_to_datetime] does: it returns a date-time or
    [None], or [datetime.combine] raises. *)
Inductive conversion : Type :=
| Combined (gps_utc : datetime)
| ReturnsNone
| CombineRaises (e : string).

(** What one pass through the body of the reader loop meets: the outcome
    of [serial.Serial(...)] should the port have to be opened, of
    [self.ser.readline()] with the two [perf_counter] readings around it,
    and of the [ctypes] call should the pass end in a synchronisation. *)
Inductive read_outcome : Type :=
| ReadLine (t_start : Q) (text : string) (t_end : Q)
    (* [text] is [readline().decode('ascii', errors='replace')] *)
| ReadRaises (e : string).

Record iteration : Type := mkIteration {
  it_open : call_outcome;
  it_read : read_outcome;
  it_ctypes : call_outcome
}.

(** The callbacks of the GUI and the passes of the reader thread. *)
Inductive event : Type :=
| EvConnect                                 (* CONNECT button *)
| EvDisconnect                              (* DISCONNECT button *)
| EvSetAutoConnect (b : bool)               (* check box bound to auto_connect_var *)
| EvSetUseLocalTime (b : bool)              (* check box bound to use_local_time_var *)
| EvSyncButton (ctypes : call_outcome)      (* SYNC to GPS button *)
| EvApplyInterval (parsed : option pyfloat) (* Apply button; float(entry) or ValueError *)
| EvTimer (k : nat) (ctypes : call_outcome) (* the k-th pending timer fires *)
| EvIteration (i : iteration).              (* one pass of the reader loop *)

Section Program.

Context `{Collaborators}.

(** [dt.astimezone()] on an aware value: the same instant in the
    process's zone. *)
Definition astimezone (a : Datetime.aware) : Datetime.aware :=
  let utc := Datetime.instant a in
  let off := utcoffset_of_utc utc in
  Datetime.mkAware (Datetime.add utc off) off.

(** [dt.astimezone()] on a naive value: the value is presumed to be a
    reading of the local clock, is given the offset that the platform
    assigns to that reading, and is then converted as an aware value is. *)
Definition astimezone_naive (dt : datetime) : Datetime.aware :=
  astimezone (Datetime.mkAware dt (utcoffset_of_local dt)).

(** [perf_to_system_time(pc_time)] *)
Definition perf_to_system_time (a : App) (pc_time : Q) : datetime :=
  let delta_sec := (pc_time - perf_base a)%Q in
  let td := Datetime.timedelta_of_seconds delta_sec in
  Datetime.add (time_base a) td.

(** [convert_nmea_to_datetime(rmc_msg)].  [datetime.combine] checks its
    first argument, then its second, and raises [TypeError] for a [str]. *)
Definition convert_nmea_to_datetime (rmc_msg : RMC) : conversion :=
  if field_truthy (datestamp rmc_msg) && field_truthy (timestamp rmc_msg) then
    match datestamp rmc_msg, timestamp rmc_msg with
    | FieldValue d, FieldValue t => Combined (Datetime.combine d t)
    | FieldValue _, _ => CombineRaises (combine_TypeError 2)
    | _, _ => CombineRaises (combine_TypeError 1)
    end
  else ReturnsNone.

(** [sync_time(gps_utc=None)] *)
Definition sync_time (ctypes : call_outcome) (gps_utc : option datetime) (a : App) : App :=
  let a := emit [SyncCalled gps_utc] a in
  let no_time := emit [ShowError "Sync Error" "No valid GPS time available."] a in
  let apply (gps_utc : datetime) : App :=
    if use_local_time_var a then
      let local_aware := astimezone (Datetime.replace_tzinfo_utc gps_utc) in
      let local_naive := Datetime.replace_tzinfo_none local_aware in
      match set_system_time_local ctypes local_naive with
      | (es, None) =>
          log_status ("System time set to LOCAL: " ++ Datetime.isoformat local_naive)
            (emit es a)
      | (es, Some e) => emit [ShowError "Sync Error" e] (emit es a)
      end
    else
      match set_system_time_utc ctypes gps_utc with
      | (es, None) =>
          log_status ("System time set to UTC: " ++ Datetime.isoformat gps_utc)
            (emit es a)
      | (es, Some e) => emit [ShowError "Sync Error" e] (emit es a)
      end in
  match gps_utc with
  | Some g => apply g
  | None =>
      match last_gps_utc a with
      | Some g => apply g
      | None =>
          let label_str := gps_time_str a in
          if negb (PyStr.contains "UTC" label_str) then no_time
          else
            let dt_str := PyStr.replace label_str " UTC" "" in
            match strptime dt_str "%Y-%m-%d %H:%M:%S" with
            | Some g => apply g
            | None => no_time
            end
      end
  end.

(** [schedule_auto_sync()]: the exception that [int] raises, if any, and
    the state; no timer is armed when [int] raises. *)
Definition schedule_auto_sync (a : App) : option int_error * App :=
  let minutes :=
    match config_sync_interval_minutes a with
    | Some m => m
    | None => Finite 30
    end in
  match int_of_float (float_scale (float_scale minutes 60) 1000) with
  | inl interval_ms => (None, set_timers (timers a ++ [interval_ms])%list a)
  | inr e => (Some e, a)
  end.

(** [auto_sync_callback()]; an exception of [schedule_auto_sync] leaves
    the callback and is reported by Tk on the standard error stream, after
    which the main loop goes on. *)
Definition auto_sync_callback (ctypes : call_outcome) (a : App) : App :=
  snd (schedule_auto_sync (sync_time ctypes None a)).

(** [apply_auto_sync_interval()]; [parsed] is [float(entry)], [None] when
    it raises [ValueError].  The handler of the [try] catches the
    [ValueError] of [int] on [nan] as well; the [OverflowError] of [int] on
    an infinity leaves the callback. *)
Definition apply_auto_sync_interval (parsed : option pyfloat) (a : App) : App :=
  let invalid :=
    ShowError "Error" "Invalid sync interval. Please enter a numeric value." in
  match parsed with
  | Some minutes =>
      let a := set_config_sync_interval_minutes (Some minutes) a in
      let a :=
        log_status ("Auto-sync interval set to " ++ format_float float_repr minutes
                    ++ " minute(s).") a in
      match schedule_auto_sync a with
      | (Some ValueError, a) => emit [invalid] a
      | (_, a) => a
      end
  | None => emit [invalid] a
  end.

(** [connect_to_gps()] *)
Definition connect_to_gps (a : App) : App :=
  match read_thread a with
  | Some _ => log_status "Already connected." a
  | None =>
      let selected := selected_port a in
      if negb (PyStr.truthy selected)
      then emit [ShowError "Error" "No COM port selected!"] a
      else
        let a := set_config_com_port selected a in
        let a := set_keep_reading true a in
        let a := set_read_thread (Some false) a in
        log_status
          ("Connecting to " ++ selected ++ " at baud=" ++ selected_baud a ++ "...") a
  end.

(** [disconnect_from_gps()]; the reader thread is taken to have left its
    loop when [join] returns. *)
Definition disconnect_from_gps (a : App) : App :=
  let a := set_keep_reading false a in
  let a := if ser_open a then emit [SerialClose] a else a in
  let a := set_ser_open false a in
  let a := set_read_thread None a in
  log_status "Disconnected from GPS." a.

(** Lines 281-314 of [gps_thread_loop]: what the loop does with the
    text of one successful read and the two [perf_counter] readings
    around it.  The local [first_valid_time_received] is passed in and
    out; an exception that the inner handler does not catch is passed
    out. *)
Definition handle_line (ctypes : call_outcome) (t_start : Q) (text : string) (t_end : Q)
    (first_valid_time_received : bool) (a : App) : completion * App :=
  let line := PyStr.strip text in
  if negb (PyStr.truthy line) then (Normal first_valid_time_received, a)
  else
    let t_mid := ((t_start + t_end) / 2)%Q in
    let system_time_at_mid := perf_to_system_time a t_mid in
    if PyStr.startswith line "$GPRMC" || PyStr.startswith line "$GNRMC" then
      match pynmea2_parse line with
      | Parsed msg =>
          if is_valid msg then
            match convert_nmea_to_datetime msg with
            | Combined gps_utc =>
                let a := set_last_gps_utc (Some gps_utc) a in
                let utc_str := Datetime.strftime_utc gps_utc in
                let a := set_gps_time_str utc_str a in
                let gps_local_aware :=
                  astimezone (Datetime.replace_tzinfo_utc gps_utc) in
                let sys_local_aware := astimezone_naive system_time_at_mid in
                let dt_sec :=
                  Datetime.total_seconds
                    (Datetime.aware_sub gps_local_aware sys_local_aware) in
                let a := set_last_delta_sec (Some dt_sec) a in
                if auto_connect_var a && negb first_valid_time_received
                then (Normal true, sync_time ctypes (Some gps_utc) a)
                else (Normal first_valid_time_received, a)
            | ReturnsNone => (Normal first_valid_time_received, a)
            | CombineRaises e => (Raised e, a)
            end
          else (Normal first_valid_time_received, a)
      | ParseError => (Normal first_valid_time_received, a)
      end
    else (Normal first_valid_time_received, a).

(** Lines 316-325: the handler of the outer [try]. *)
Definition read_error (e : string) (a : App) : App :=
  emit [Sleep 3]
    (set_ser_open false (emit [SerialClose] (log_status ("Read error: " ++ e) a))).

(** The body of the [while] loop of [gps_thread_loop]. *)
Definition gps_thread_loop_body (i : iteration) (first_valid_time_received : bool)
    (a : App) : bool * App :=
  let opened : option App :=
    if negb (ser_open a) then
      match it_open i with
      | Returns => Some (set_ser_open true (emit [SerialOpen (config_com_port a)] a))
      | Raises e =>
          None
      end
    else Some a in
  match opened with
  | None =>
      let e := match it_open i with Raises e => e | Returns => "" end in
      (first_valid_time_received,
       emit [Sleep 3]
         (log_status ("Error opening port: " ++ e)
            (emit [SerialOpen (config_com_port a)] a)))
  | Some a =>
      match it_read i with
      | ReadRaises e => (first_valid_time_received, read_error e a)
      | ReadLine t_start text t_end =>
          let r :=
            handle_line (it_ctypes i) t_start text t_end first_valid_time_received a in
          match fst r with
          | Normal first => (first, snd r)
          | Raised e => (first_valid_time_received, read_error e (snd r))
          end
      end
  end.

(** One test of the loop condition followed by one pass through the
    body, when the reader thread is alive. *)
Definition gps_thread_loop_step (i : iteration) (a : App) : App :=
  match read_thread a with
  | None => a
  | Some first =>
      if keep_reading a then
        let r := gps_thread_loop_body i first a in
        set_read_thread (Some (fst r)) (snd r)
      else set_read_thread None a
  end.

(** Take the [k]-th element out of a list. *)
Fixpoint take_out {A : Type} (k : nat) (l : list A) : option (A * list A) :=
  match l, k with
  | [], _ => None
  | x :: l', O => Some (x, l')
  | x :: l', S k' =>
      match take_out k' l' with
      | Some (y, r) => Some (y, x :: r)
      | None => None
      end
  end.

Definition step (a : App) (ev : event) : App :=
  match ev with
  | EvConnect => connect_to_gps a
  | EvDisconnect => disconnect_from_gps a
  | EvSetAutoConnect b => set_auto_connect_var b a
  | EvSetUseLocalTime b => set_use_local_time_var b a
  | EvSyncButton c => sync_time c None a
  | EvApplyInterval parsed => apply_auto_sync_interval parsed a
  | EvTimer k c =>
      match take_out k (timers a) with
      | Some (_, rest) => auto_sync_callback c (set_timers rest a)
      | None => a
      end
  | EvIteration i => gps_thread_loop_step i a
  end.

Definition run (a : App) (evs : list event) : App := fold_left step evs a.

(** [GpsTimeSyncApp.__init__], from the loaded configuration and the
    two clock readings that anchor the bridge. *)
Definition init (cfg : Config) (perf_now : Q) (now : datetime) : App :=
  let a :=
    {| config_sync_interval_minutes := option_map Finite (sync_interval_minutes cfg);
       config_com_port := com_port cfg;
       selected_port := com_port cfg;
       selected_baud := baud_rate cfg;
       auto_connect_var := auto_connect_sync cfg;
       use_local_time_var := use_local_time cfg;
       gps_time_str := "--:--:--";
       last_gps_utc := None;
       last_delta_sec := None;
       perf_base := perf_now;
       time_base := now;
       keep_reading := false;
       read_thread := None;
       ser_open := false;
       timers := [];
       out := [] |} in
  let a := log_status "Ports refreshed." a in
  let a := if auto_connect_var a then connect_to_gps a else a in
  snd (schedule_auto_sync a).

(** The fix that a line of input makes the reader loop accept. *)
Definition decode (text : string) : option datetime :=
  let line := PyStr.strip text in
  if PyStr.truthy line
     && (PyStr.startswith line "$GPRMC" || PyStr.startswith line "$GNRMC")
  then
    match pynmea2_parse line with
    | Parsed msg =>
        if is_valid msg then
          match convert_nmea_to_datetime msg with
          | Combined gps_utc => Some gps_utc
          | _ => None
          end
        else None
    | ParseError => None
    end
  else None.

(** The exception with which a line of input makes the statements of lines
    281-314 end, if it does. *)
Definition line_raises (text : string) : option string :=
  let line := PyStr.strip text in
  if PyStr.truthy line
     && (PyStr.startswith line "$GPRMC" || PyStr.startswith line "$GNRMC")
  then
    match pynmea2_parse line with
    | Parsed msg =>
        if is_valid msg then
          match convert_nmea_to_datetime msg with
          | CombineRaises e => Some e
          | _ => None
          end
        else None
    | ParseError => None
    end
  else None.

End Program.

(** The fix carried by an event, when it is a pass of the reader loop
    whose read returns a line that the loop accepts. *)
Definition event_fix `{Collaborators} (ev : event) : option datetime :=
  match ev with
  | EvIteration i =>
      match it_read i with
      | ReadLine _ text _ => decode text
      | ReadRaises _ => None
      end
  | _ => None
  end.

Definition is_disconnect (ev : event) : bool :=
  match ev with
  | EvDisconnect => true
  | _ => false
  end.

(** Events that may switch the auto-connect-and-sync flag off. *)
Definition clears_auto_connect (ev : event) : bool :=
  match ev with
  | EvSetAutoConnect false => true
  | _ => false
  end.

(** What a call of [sync_time] does, apart from what was done before. *)
Definition sync_effects `{Collaborators} (ctypes : call_outcome)
    (gps_utc : option datetime) (a : App) : list effect :=
  out (sync_time ctypes gps_utc (set_out [] a)).

(** The clock-setting call that [sync_time] makes for the resolved
    instant [gps_utc] under the preference [local]. *)
Definition clock_call `{Collaborators} (local : bool) (gps_utc : datetime) : effect :=
  if local
  then SetLocalTime
         (fill_SYSTEMTIME
            (Datetime.replace_tzinfo_none (astimezone (Datetime.replace_tzinfo_utc gps_utc))))
  else SetSystemTime (fill_SYSTEMTIME gps_utc).

(** The instant that [sync_time] goes on to apply (lines 363-376): the
    argument, else the last fix, else the instant read back from the
    display string; [None] where [sync_time] reports that no GPS time is
    available. *)
Definition resolve_instant `{Collaborators} (gps_utc : option datetime) (a : App)
  : option datetime :=
  match gps_utc with
  | Some g => Some g
  | None =>
      match last_gps_utc a with
      | Some g => Some g
      | None =>
          if negb (PyStr.contains "UTC" (gps_time_str a)) then None
          else strptime (PyStr.replace (gps_time_str a) " UTC" "") "%Y-%m-%d %H:%M:%S"
      end
  end.

(** The clock-setting calls among the actions [es]. *)
Definition clock_mutations (es : list effect) : list effect := filter is_clock_mutation es.

(** The synchronisations started by the reader thread among [es]. *)
Definition auto_syncs (es : list effect) : list effect := filter is_auto_sync es.

(** No fix has been recorded and the clock has not been set. *)
Definition no_fix_yet (a : App) : Prop :=
  last_gps_utc a = None /\ gps_time_str a = "--:--:--" /\ clock_mutations (out a) = [].

(** The message of [sync_time] when it finds no instant to apply. *)
Definition no_fix_available : effect :=
  ShowError "Sync Error" "No valid GPS time available.".

(** ** A reference instance of the collaborators

    A reader of RMC sentences (a dollar sign, comma separated fields with
    the time in field 1, the status in field 2 and the date in field 9, and
    an optional checksum, which is verified when present), a reader of the
    fixed-width form of ["%Y-%m-%d %H:%M:%S"], and a zone two hours east of
    Greenwich.  The examples run on it. *)

Module Reference.

Fixpoint split_on (sep : ascii) (s : string) (cur : string) : list string :=
  match s with
  | EmptyString => [cur]
  | String c s' =>
      if Ascii.eqb c sep then cur :: split_on sep s' EmptyString
      else split_on sep s' (cur ++ String c EmptyString)
  end.

Definition digit_value (c : ascii) : option Z :=
  let n := Z.of_nat (nat_of_ascii c) in
  if (48 <=? n) && (n <=? 57) then Some (n - 48) else None.

Fixpoint digits_value (s : string) (acc : Z) : option Z :=
  match s with
  | EmptyString => Some acc
  | String c s' =>
      match digit_value c with
      | Some d => digits_value s' (acc * 10 + d)
      | None => None
      end
  end.

(** The decimal number written at [s[i:i+n]], when that is [n] digits. *)
Definition number_at (s : string) (i n : nat) : option Z :=
  let t := String.substring i n s in
  if Nat.eqb (String.length t) n then digits_value t 0 else None.

(** ["hhmmss"] *)
Definition read_time (s : string) : option timeofday :=
  match number_at s 0 2, number_at s 2 2, number_at s 4 2 with
  | Some h, Some mi, Some sec =>
      if Nat.eqb (String.length s) 6 && (h <? 24) && (mi <? 60) && (sec <? 60)
      then Some (Datetime.mktime h mi sec 0) else None
  | _, _, _ => None
  end.

(** ["ddmmyy"], with the two-digit year read as ["%y"] reads it. *)
Definition read_date (s : string) : option date :=
  match number_at s 0 2, number_at s 2 2, number_at s 4 2 with
  | Some d, Some m, Some yy =>
      let y := if yy <? 69 then 2000 + yy else 1900 + yy in
      if Nat.eqb (String.length s) 6 && (1 <=? m) && (m <=? 12) && (1 <=? d)
         && (d <=? Calendar.days_in_month (Calendar.is_leap y) m)
      then Some (Datetime.mkdate y m d) else None
  | _, _, _ => None
  end.

(** An attribute with a converter: [None] for the empty field, the text
    itself when the converter raises. *)
Definition read_field {A : Type} (f : string -> option A) (s : string)
  : nmea_field A :=
  match s with
  | EmptyString => FieldNone
  | _ => match f s with Some v => FieldValue v | None => FieldText s end
  end.

(** The exclusive or of the character codes: the NMEA checksum. *)
Fixpoint checksum (s : string) (acc : N) : N :=
  match s with
  | EmptyString => acc
  | String c s' => checksum s' (N.lxor acc (N_of_ascii c))
  end.

Definition hex_value (c : ascii) : option N :=
  let n := N_of_ascii c in
  if (48 <=? n)%N && (n <=? 57)%N then Some (n - 48)%N
  else if (65 <=? n)%N && (n <=? 70)%N then Some (n - 55)%N
  else if (97 <=? n)%N && (n <=? 102)%N then Some (n - 87)%N
  else None.

(** The two hexadecimal digits after the asterisk. *)
Definition read_checksum (s : string) : option N :=
  match s with
  | String h (String l EmptyString) =>
      match hex_value h, hex_value l with
      | Some a, Some b => Some (16 * a + b)%N
      | _, _ => None
      end
  | _ => None
  end.

(** The fields of the sentence body [s]: a missing trailing field reads
    as an empty one. *)
Definition parse_body (s : string) : parse_result :=
  match split_on "," s EmptyString with
  | _ :: data =>
      match data with
      | [] => ParseError
      | _ =>
          let field (k : nat) := nth k data EmptyString in
          Parsed (mkRMC (String.eqb (field 1%nat) "A")
                    (read_field read_date (field 8%nat))
                    (read_field read_time (field 0%nat)))
      end
  | [] => ParseError
  end.

Definition parse (line : string) : parse_result :=
  match line with
  | String "$" rest =>
      match split_on "*" rest EmptyString with
      | [body] => parse_body body
      | [body; cs] =>
          match read_checksum cs with
          | Some v => if N.eqb v (checksum body 0) then parse_body body else ParseError
          | None => ParseError
          end
      | _ => ParseError
      end
  | _ => ParseError
  end.

(** ["YYYY-MM-DD HH:MM:SS"] *)
Definition read_datetime (data fmt : string) : option datetime :=
  match number_at data 0 4, number_at data 5 2, number_at data 8 2,
        number_at data 11 2, number_at data 14 2, number_at data 17 2 with
  | Some y, Some m, Some d, Some h, Some mi, Some s =>
      if String.eqb fmt "%Y-%m-%d %H:%M:%S"
         && String.eqb (String.substring 4 1 data) "-"
         && String.eqb (String.substring 7 1 data) "-"
         && String.eqb (String.substring 10 1 data) " "
         && String.eqb (String.substring 13 1 data) ":"
         && String.eqb (String.substring 16 1 data) ":"
         && Nat.eqb (String.length data) 19
         && (1 <=? y) && (1 <=? m) && (m <=? 12) && (1 <=? d)
         && (d <=? Calendar.days_in_month (Calendar.is_leap y) m)
         && (h <? 24) && (mi <? 60) && (s <? 60)
      then Some (Datetime.mk y m d h mi s 0) else None
  | _, _, _, _, _, _ => None
  end.

Definition two_hours : timedelta := 2 * 3600 * Datetime.us_per_second.

(** [str(n)] for an integer [n]. *)
Fixpoint decimal_digits (fuel : nat) (n : Z) (acc : string) : string :=
  match fuel with
  | O => acc
  | S fuel' =>
      let acc' := String (PyStr.digit (n mod 10)) acc in
      if n / 10 =? 0 then acc' else decimal_digits fuel' (n / 10) acc'
  end.

Definition decimal (n : Z) : string :=
  let digits := decimal_digits (S (Z.to_nat (Z.log2 (Z.abs n)))) (Z.abs n) "" in
  if n <? 0 then "-" ++ digits else digits.

(** Whole numbers print as Python prints a float ([10.0]); the other
    values print as a fraction. *)
Definition show_float (q : Q) : string :=
  let r := Qred q in
  match Qden r with
  | 1%positive => decimal (Qnum r) ++ ".0"
  | d => decimal (Qnum r) ++ "/" ++ decimal (Zpos d)
  end.

Definition collaborators : Collaborators :=
  {| pynmea2_parse := parse;
     strptime := read_datetime;
     utcoffset_of_utc := fun _ => two_hours;
     utcoffset_of_local := fun _ => two_hours;
     float_repr := show_float;
     combine_TypeError :=
       fun k =>
         "combine() argument " ++ decimal k ++ " must be datetime."
         ++ (if k =? 1 then "date" else "time") ++ ", not str" |}.

Definition sentence : string :=
  "$GPRMC,123519,A,4807.038,N,01131.000,E,022.4,084.4,230394,003.1,W*6A".

Definition default_config : Config :=
  {| com_port := ""; auto_connect_sync := false; sync_interval_minutes := Some 30%Q;
     use_local_time := true; baud_rate := "9600" |}.

Definition auto_config : Config :=
  {| com_port := "COM3"; auto_connect_sync := true; sync_interval_minutes := Some 30%Q;
     use_local_time := false; baud_rate := "9600" |}.

(** The application started at 2024-01-01T10:00:00 local time with the
    tick counter at 100 s. *)
Definition app0 (cfg : Config) : App :=
  init cfg 100%Q (Datetime.mk 2024 1 1 10 0 0 0).

(** The same application started at 1994-03-23T14:35:00 local time. *)
Definition app1994 (cfg : Config) : App :=
  init cfg 100%Q (Datetime.mk 1994 3 23 14 35 0 0).

(** The sentence with its validity flag cleared, a sentence of another
    type, the sentence cut after its time, and the sentence with a digit of
    its time altered in transmission, so that its checksum fails. *)
Definition void_sentence : string :=
  "$GPRMC,123519,V,4807.038,N,01131.000,E,022.4,084.4,230394,003.1,W*7D".

Definition gga_sentence : string :=
  "$GPGGA,123519,4807.038,N,01131.000,E,1,08,0.9,545.4,M,46.9,M,,*47".

Definition cut_sentence : string := "$GPRMC,123519".

(** A line that holds nothing but its terminator. *)
Definition blank_line : string := String "013" (String "010" EmptyString).

Definition garbled_sentence : string :=
  "$GPRMC,123518,A,4807.038,N,01131.000,E,022.4,084.4,230394,003.1,W*6A".

(** A sentence sent during a leap second, and a sentence dated 31
    February: the checksums hold and the fix is flagged valid, but the time
    of the one and the date of the other do not convert. *)
Definition leap_second_sentence : string :=
  "$GPRMC,235960,A,4807.038,N,01131.000,E,022.4,084.4,311216,003.1,W*65".

Definition february_31_sentence : string :=
  "$GPRMC,123519,A,4807.038,N,01131.000,E,022.4,084.4,310294,003.1,W*68".

(** A pass of the reader loop that reads [text] between the ticks 119.0
    and 119.1. *)
Definition reads (text : string) : iteration :=
  mkIteration Returns (ReadLine 119%Q text (1191 # 10)%Q) Returns.

(** A pass of the reader loop whose read raises. *)
Definition unplugged : iteration :=
  mkIteration Returns (ReadRaises "device disconnected") Returns.

(** A session: a sentence of another type, three fixes, a read error
    followed by the re-opening of the port, and seven more fixes. *)
Definition session : list event :=
  (EvIteration (reads gga_sentence)
   :: repeat (EvIteration (reads sentence)) 3
   ++ EvIteration unplugged :: repeat (EvIteration (reads sentence)) 7)%list.

Definition fix1994 : datetime := Datetime.mk 1994 3 23 12 35 19 0.

End Reference.

(** ** Measures on events and actions *)

Definition is_connect (ev : event) : bool :=
  match ev with
  | EvConnect => true
  | _ => false
  end.



Definition is_sync_call (e : effect) : bool :=
  match e with
  | SyncCalled _ => true
  | _ => false
  end.

(** The calls of [sync_time] among the actions [es]. *)
Definition sync_calls (es : list effect) : list effect := filter is_sync_call es.

(** 1 while the reader thread is alive with its local
    [first_valid_time_received] still [False], 0 otherwise. *)
Definition pending_auto_sync (a : App) : nat :=
  match read_thread a with
  | Some false => 1
  | _ => 0
  end.



(** The tracker and the GPS-time display agree: with a fix stored the
    display shows that fix and an offset is stored; with none, the display
    shows the placeholder and no offset is stored. *)
Definition tracker_consistent (a : App) : Prop :=
  match last_gps_utc a with
  | Some g => gps_time_str a = Datetime.strftime_utc g /\ last_delta_sec a <> None
  | None => gps_time_str a = "--:--:--" /\ last_delta_sec a = None
  end.

(** What a pass of the reader loop does when the port cannot be opened. *)
Definition open_failure (a : App) (e : string) : list effect :=
  [SerialOpen (config_com_port a); LogStatus ("Error opening port: " ++ e); Sleep 3].

(** * Properties *)

(** ** The library layer on literal values *)

Example mk_literal :
  Datetime.mk 1994 3 23 12 35 19 0 = 62900022919000000.
Proof. reflexivity. Qed.

Example fields_literal :
  let dt := Datetime.mk 1994 3 23 12 35 19 50000 in
  (Datetime.year dt, Datetime.month dt, Datetime.day dt, Datetime.hour dt,
   Datetime.minute dt, Datetime.second dt, Datetime.microsecond dt)
  = (1994, 3, 23, 12, 35, 19, 50000).
Proof. vm_compute. reflexivity. Qed.

Example strftime_literal :
  Datetime.strftime_utc (Datetime.mk 1994 3 23 12 35 19 0) = "1994-03-23 12:35:19 UTC".
Proof. vm_compute. reflexivity. Qed.

Example isoformat_literal :
  Datetime.isoformat (Datetime.mk 2024 2 29 23 59 59 50000) = "2024-02-29T23:59:59.050000".
Proof. vm_compute. reflexivity. Qed.

Example strip_literal : PyStr.strip ("  $GPRMC,1" ++ String "013" (String "010" "")) = "$GPRMC,1".
Proof. reflexivity. Qed.

Example replace_literal :
  PyStr.replace "1994-03-23 12:35:19 UTC" " UTC" "" = "1994-03-23 12:35:19".
Proof. reflexivity. Qed.

Example reference_parse_sentence :
  @decode Reference.collaborators Reference.sentence
  = Some (Datetime.mk 1994 3 23 12 35 19 0).
Proof. vm_compute. reflexivity. Qed.

Example reference_strptime :
  Reference.read_datetime "1994-03-23 12:35:19" "%Y-%m-%d %H:%M:%S"
  = Some (Datetime.mk 1994 3 23 12 35 19 0).
Proof. vm_compute. reflexivity. Qed.


Example reference_parse_outcomes :
  Reference.parse Reference.garbled_sentence = ParseError
  /\ Reference.parse "$GPRMC" = ParseError
  /\ Reference.parse Reference.cut_sentence
     = Parsed (mkRMC false FieldNone (FieldValue (Datetime.mktime 12 35 19 0)))
  /\ Reference.parse Reference.void_sentence
     = Parsed (mkRMC false (FieldValue (Datetime.mkdate 1994 3 23))
                 (FieldValue (Datetime.mktime 12 35 19 0)))
  /\ Reference.parse Reference.leap_second_sentence
     = Parsed (mkRMC true (FieldValue (Datetime.mkdate 2016 12 31)) (FieldText "235960"))
  /\ Reference.parse Reference.february_31_sentence
     = Parsed (mkRMC true (FieldText "310294") (FieldValue (Datetime.mktime 12 35 19 0))).
Proof. vm_compute. repeat split; reflexivity. Qed.

(** ** The program on literal inputs *)

Example init_auto_connect :
  out (Reference.app0 Reference.auto_config)
  = [LogStatus "Ports refreshed."; LogStatus "Connecting to COM3 at baud=9600..."]
  /\ timers (Reference.app0 Reference.auto_config) = [1800000]
  /\ read_thread (Reference.app0 Reference.auto_config) = Some false.
Proof. vm_compute. repeat split; reflexivity. Qed.

Example init_no_port :
  out (connect_to_gps (Reference.app0 Reference.default_config))
  = [LogStatus "Ports refreshed."; ShowError "Error" "No COM port selected!"].
Proof. vm_compute. reflexivity. Qed.

Example sync_local_literal :
  @sync_effects Reference.collaborators Returns (Some Reference.fix1994)
    (Reference.app0 Reference.default_config)
  = [SyncCalled (Some Reference.fix1994);
     SetLocalTime (mkSYSTEMTIME 1994 3 0 23 14 35 19 0);
     LogStatus "System time set to LOCAL: 1994-03-23T14:35:19"].
Proof. vm_compute. reflexivity. Qed.

Example sync_utc_raises_literal :
  @sync_effects Reference.collaborators (Raises "access denied") (Some Reference.fix1994)
    (Reference.app0 Reference.auto_config)
  = [SyncCalled (Some Reference.fix1994);
     SetSystemTime (mkSYSTEMTIME 1994 3 0 23 12 35 19 0);
     ShowError "Sync Error" "Failed to set system time (UTC): access denied"].
Proof. vm_compute. reflexivity. Qed.

Example first_fix_literal :
  out (@step Reference.collaborators (Reference.app0 Reference.auto_config)
         (EvIteration (Reference.reads Reference.sentence)))
  = [LogStatus "Ports refreshed."; LogStatus "Connecting to COM3 at baud=9600...";
     SerialOpen "COM3"; SyncCalled (Some Reference.fix1994);
     SetSystemTime (mkSYSTEMTIME 1994 3 0 23 12 35 19 0);
     LogStatus "System time set to UTC: 1994-03-23T12:35:19"]
  /\ gps_time_str (@step Reference.collaborators (Reference.app0 Reference.auto_config)
                     (EvIteration (Reference.reads Reference.sentence)))
     = "1994-03-23 12:35:19 UTC".
Proof. vm_compute. split; reflexivity. Qed.

Example read_error_literal :
  out (@step Reference.collaborators (Reference.app0 Reference.auto_config)
         (EvIteration Reference.unplugged))
  = [LogStatus "Ports refreshed."; LogStatus "Connecting to COM3 at baud=9600...";
     SerialOpen "COM3"; LogStatus "Read error: device disconnected"; SerialClose; Sleep 3]
  /\ ser_open (@step Reference.collaborators (Reference.app0 Reference.auto_config)
                 (EvIteration Reference.unplugged)) = false.
Proof. vm_compute. split; reflexivity. Qed.

Example leap_second_literal :
  out (@step Reference.collaborators (Reference.app0 Reference.auto_config)
         (EvIteration (Reference.reads Reference.leap_second_sentence)))
  = [LogStatus "Ports refreshed."; LogStatus "Connecting to COM3 at baud=9600...";
     SerialOpen "COM3";
     LogStatus "Read error: combine() argument 2 must be datetime.time, not str";
     SerialClose; Sleep 3]
  /\ ser_open (@step Reference.collaborators (Reference.app0 Reference.auto_config)
                 (EvIteration (Reference.reads Reference.leap_second_sentence))) = false.
Proof. vm_compute. split; reflexivity. Qed.

Example apply_interval_literal :
  out (@apply_auto_sync_interval Reference.collaborators (Some (Finite 10))
         (Reference.app0 Reference.default_config))
  = [LogStatus "Ports refreshed."; LogStatus "Auto-sync interval set to 10.0 minute(s)."].
Proof. vm_compute. reflexivity. Qed.

Example apply_nan_literal :
  out (@apply_auto_sync_interval Reference.collaborators (Some NaN)
         (Reference.app0 Reference.default_config))
  = [LogStatus "Ports refreshed."; LogStatus "Auto-sync interval set to nan minute(s).";
     ShowError "Error" "Invalid sync interval. Please enter a numeric value."]
  /\ timers (@apply_auto_sync_interval Reference.collaborators (Some NaN)
               (Reference.app0 Reference.default_config))
     = [1800000]
  /\ timers (@step Reference.collaborators
               (@apply_auto_sync_interval Reference.collaborators (Some NaN)
                  (Reference.app0 Reference.default_config))
               (EvTimer 0 Returns))
     = [].
Proof. vm_compute. repeat split; reflexivity. Qed.

Example half_even_literal :
  Datetime.timedelta_of_seconds (5 # 10000000) = 0
  /\ Datetime.timedelta_of_seconds (15 # 10000000) = 2
  /\ Datetime.timedelta_of_seconds (- (7 # 10000000)) = -1.
Proof. vm_compute. repeat split; reflexivity. Qed.

(** ** Rounding and the [timedelta] conversions *)

Lemma round_half_even_floor (q : Q) :
  Datetime.round_half_even q = Qfloor q \/ Datetime.round_half_even q = Qfloor q + 1.
Proof.
  unfold Datetime.round_half_even.
  destruct (Qcompare_spec (q - inject_Z (Qfloor q)) (1 # 2)); auto.
  destruct (Z.even (Qfloor q)); auto.
Qed.

Lemma round_half_even_near (q : Q) :
  (inject_Z (Datetime.round_half_even q) - (1 # 2) <= q
   /\ q <= inject_Z (Datetime.round_half_even q) + (1 # 2))%Q.
Proof.
  pose proof (Qfloor_le q) as Hlo.
  pose proof (Qlt_floor q) as Hhi.
  rewrite inject_Z_plus in Hhi. change (inject_Z 1) with 1%Q in Hhi.
  unfold Datetime.round_half_even.
  destruct (Qcompare_spec (q - inject_Z (Qfloor q)) (1 # 2)) as [E | L | G].
  - destruct (Z.even (Qfloor q)).
    + split; lra.
    + rewrite inject_Z_plus. change (inject_Z 1) with 1%Q. split; lra.
  - split; lra.
  - rewrite inject_Z_plus. change (inject_Z 1) with 1%Q. split; lra.
Qed.

Lemma round_half_even_mono (p q : Q) :
  (p <= q)%Q -> Datetime.round_half_even p <= Datetime.round_half_even q.
Proof.
  intros Hpq.
  pose proof (Qfloor_resp_le _ _ Hpq) as Hfl.
  destruct (Z.eq_dec (Qfloor p) (Qfloor q)) as [Heq | Hne].
  - unfold Datetime.round_half_even. rewrite <- Heq.
    destruct (Qcompare_spec (p - inject_Z (Qfloor p)) (1 # 2)) as [E | L | G];
      destruct (Qcompare_spec (q - inject_Z (Qfloor p)) (1 # 2)) as [E' | L' | G'];
      try (destruct (Z.even (Qfloor p))); try lia; exfalso; lra.
  - destruct (round_half_even_floor p) as [-> | ->];
      destruct (round_half_even_floor q) as [-> | ->]; lia.
Qed.

Lemma round_half_even_Z (z : Z) : Datetime.round_half_even (inject_Z z) = z.
Proof.
  unfold Datetime.round_half_even. rewrite Qfloor_Z.
  destruct (Qcompare_spec (inject_Z z - inject_Z z) (1 # 2)) as [E | L | G].
  - exfalso. lra.
  - reflexivity.
  - exfalso. lra.
Qed.

Lemma round_half_even_comp (p q : Q) :
  (p == q)%Q -> Datetime.round_half_even p = Datetime.round_half_even q.
Proof.
  intros E.
  assert (F : Qfloor p = Qfloor q) by (apply Qfloor_comp; exact E).
  assert (Cmp : Qcompare (p - inject_Z (Qfloor p)) (1 # 2)
                = Qcompare (q - inject_Z (Qfloor q)) (1 # 2)).
  { rewrite F. apply Qcompare_comp; [ | reflexivity]. rewrite E. reflexivity. }
  unfold Datetime.round_half_even. cbv zeta. rewrite Cmp, F. reflexivity.
Qed.

Lemma timedelta_of_seconds_mono (p q : Q) :
  (p <= q)%Q -> Datetime.timedelta_of_seconds p <= Datetime.timedelta_of_seconds q.
Proof.
  intros Hpq. unfold Datetime.timedelta_of_seconds.
  apply round_half_even_mono.
  apply Qmult_le_compat_r; [exact Hpq | discriminate].
Qed.

Lemma total_seconds_spec (td : timedelta) :
  (Datetime.total_seconds td == inject_Z td / inject_Z Datetime.us_per_second)%Q.
Proof.
  unfold Datetime.total_seconds, Datetime.us_per_second.
  rewrite (Qmake_Qdiv td 1000000). reflexivity.
Qed.

(** ** What [sync_time] does *)

(** ** The scheduler on a finite interval *)

Lemma schedule_auto_sync_finite (a : App) (m : Q) :
  match config_sync_interval_minutes a with
  | Some x => x
  | None => Finite 30
  end = Finite m ->
  schedule_auto_sync a
  = (None, set_timers (timers a ++ [py_int (m * 60 * 1000)])%list a).
Proof. intros Hm. unfold schedule_auto_sync. cbv zeta. rewrite Hm. reflexivity. Qed.

(** [schedule_auto_sync] touches nothing but the pending timers. *)
Lemma schedule_auto_sync_keeps (a : App) :
  snd (schedule_auto_sync a) = set_timers (timers (snd (schedule_auto_sync a))) a.
Proof.
  unfold schedule_auto_sync. cbv zeta.
  destruct (int_of_float _) as [ms | e]; cbn [snd]; destruct a; reflexivity.
Qed.


(** At start-up the interval is a number, so that [schedule_auto_sync]
    returns. *)
Lemma init_unfold (cfg : Config) (perf_now : Q) (now : datetime) :
  init cfg perf_now now
  = let a :=
      {| config_sync_interval_minutes := option_map Finite (sync_interval_minutes cfg);
         config_com_port := com_port cfg;
         selected_port := com_port cfg;
         selected_baud := baud_rate cfg;
         auto_connect_var := auto_connect_sync cfg;
         use_local_time_var := use_local_time cfg;
         gps_time_str := "--:--:--";
         last_gps_utc := None;
         last_delta_sec := None;
         perf_base := perf_now;
         time_base := now;
         keep_reading := false;
         read_thread := None;
         ser_open := false;
         timers := [];
         out := [] |} in
    let a := log_status "Ports refreshed." a in
    let a := if auto_connect_var a then connect_to_gps a else a in
    let minutes :=
      match sync_interval_minutes cfg with
      | Some m => m
      | None => 30%Q
      end in
    set_timers (timers a ++ [py_int (minutes * 60 * 1000)])%list a.
Proof.
  unfold init. cbv zeta.
  match goal with
  | |- snd (schedule_auto_sync ?b) = _ =>
      rewrite (schedule_auto_sync_finite b
                 match sync_interval_minutes cfg with
                 | Some m => m
                 | None => 30%Q
                 end)
  end; [reflexivity | ].
  unfold connect_to_gps, log_status. simpl.
  destruct (auto_connect_sync cfg); simpl;
    [destruct (PyStr.truthy (com_port cfg)); simpl | ];
    destruct (sync_interval_minutes cfg); reflexivity.
Qed.

Section SyncTime.

Context `{Collaborators}.

Lemma emit_emit (es fs : list effect) (a : App) :
  emit fs (emit es a) = emit (es ++ fs)%list a.
Proof. unfold emit, set_out. simpl. rewrite <- app_assoc. reflexivity. Qed.

Lemma emit_nil (a : App) : emit [] a = a.
Proof. destruct a. unfold emit, set_out. simpl. rewrite app_nil_r. reflexivity. Qed.

(** [sync_time] touches nothing but the record of what was done. *)
Lemma sync_time_emit (c : call_outcome) (ovr : option datetime) (a : App) :
  sync_time c ovr a = emit (sync_effects c ovr a) a.
Proof.
  unfold sync_effects, sync_time, set_system_time_local, set_system_time_utc, log_status.
  destruct a as [ci cp sp sb au ul gs lg ld pb tb kr rt so tm o]. simpl.
  destruct ovr as [g | ]; [ | destruct lg as [g | ];
    [ | destruct (PyStr.contains "UTC" gs); simpl;
        [ destruct (strptime (PyStr.replace gs " UTC" "") "%Y-%m-%d %H:%M:%S") as [g | ] | ] ] ];
    try (destruct ul; destruct c);
    unfold emit, set_out; simpl; rewrite <- ?app_assoc; reflexivity.
Qed.

(** The actions of one call, by the instant it resolves. *)
Lemma sync_effects_resolved (c : call_outcome) (ovr : option datetime) (a : App) :
  match resolve_instant ovr a with
  | Some g =>
      exists r, is_clock_mutation r = false /\ is_auto_sync r = false /\
        sync_effects c ovr a = [SyncCalled ovr; clock_call (use_local_time_var a) g; r]
  | None =>
      sync_effects c ovr a
      = [SyncCalled ovr; ShowError "Sync Error" "No valid GPS time available."]
  end.
Proof.
  unfold resolve_instant, sync_effects, sync_time, clock_call,
    set_system_time_local, set_system_time_utc, log_status.
  destruct a as [ci cp sp sb au ul gs lg ld pb tb kr rt so tm o]. simpl.
  destruct ovr as [g | ]; [ | destruct lg as [g | ];
    [ | destruct (PyStr.contains "UTC" gs); simpl;
        [ destruct (strptime (PyStr.replace gs " UTC" "") "%Y-%m-%d %H:%M:%S") as [g | ] | ] ] ];
    try reflexivity;
    destruct ul; destruct c; simpl; eexists; repeat split; reflexivity.
Qed.

Lemma sync_time_out (c : call_outcome) (ovr : option datetime) (a : App) :
  out (sync_time c ovr a) = (out a ++ sync_effects c ovr a)%list.
Proof. rewrite sync_time_emit. reflexivity. Qed.

End SyncTime.

(** ** The fields of a date-time fit the [WORD]s of [SYSTEMTIME] *)

Lemma ord2ymd_bounds (o : Z) :
  1 <= o <= 3652059 ->
  let '(y, m, d) := Calendar.ord2ymd o in
  1 <= y <= 10101 /\ 1 <= m <= 12 /\ 1 <= d <= 31.
Proof.
  intros Ho. unfold Calendar.ord2ymd, Calendar.DI400Y, Calendar.DI100Y, Calendar.DI4Y.
  set (n0 := o - 1).
  assert (H400 : 0 <= n0 / 146097 < 25)
    by (subst n0; split; [apply Z.div_pos | apply Z.div_lt_upper_bound]; lia).
  pose proof (Z.mod_pos_bound n0 146097 ltac:(lia)) as Hm400.
  set (a := n0 mod 146097) in *.
  assert (H100 : 0 <= a / 36524 < 5)
    by (split; [apply Z.div_pos | apply Z.div_lt_upper_bound]; lia).
  pose proof (Z.mod_pos_bound a 36524 ltac:(lia)) as Hm100.
  set (b := a mod 36524) in *.
  assert (H4 : 0 <= b / 1461 < 25)
    by (split; [apply Z.div_pos | apply Z.div_lt_upper_bound]; lia).
  pose proof (Z.mod_pos_bound b 1461 ltac:(lia)) as Hm4.
  set (c := b mod 1461) in *.
  assert (H1 : 0 <= c / 365 < 5)
    by (split; [apply Z.div_pos | apply Z.div_lt_upper_bound]; lia).
  pose proof (Z.mod_pos_bound c 365 ltac:(lia)) as Hm1.
  set (n := c mod 365) in *.
  set (n400 := n0 / 146097) in *. set (n100 := a / 36524) in *.
  set (n4 := b / 1461) in *. set (n1 := c / 365) in *.
  destruct ((n1 =? 4) || (n100 =? 4)) eqn:Hlast.
  - apply orb_true_iff in Hlast. rewrite !Z.eqb_eq in Hlast. lia.
  - set (leap := (n1 =? 3) && (negb (n4 =? 24) || (n100 =? 3))).
    rewrite Z.shiftr_div_pow2 by lia. change (2 ^ 5) with 32.
    assert (Hm : 1 <= (n + 50) / 32 < 13)
      by (split; [apply Z.div_le_lower_bound | apply Z.div_lt_upper_bound]; lia).
    pose proof (Z.div_mod (n + 50) 32 ltac:(lia)) as Hdm.
    pose proof (Z.mod_pos_bound (n + 50) 32 ltac:(lia)) as Hr.
    set (m := (n + 50) / 32) in *.
    assert (Hcases : m = 1 \/ m = 2 \/ m = 3 \/ m = 4 \/ m = 5 \/ m = 6 \/ m = 7
                     \/ m = 8 \/ m = 9 \/ m = 10 \/ m = 11 \/ m = 12) by lia.
    destruct leap;
      repeat (destruct Hcases as [Hc | Hcases]; [ rewrite Hc in *; clear Hc | ]);
      try (rewrite Hcases in *; clear Hcases);
      cbn [Calendar.days_before_month Calendar.days_in_month Z.ltb Z.compare
           Pos.compare Pos.compare_cont andb Z.add Z.sub Z.opp Z.pos_sub Pos.add
           Pos.succ Pos.pred_double Z.double Z.succ_double Z.pred_double];
      match goal with
      | |- context [?x <? ?y] => destruct (Z.ltb_spec x y)
      end; lia.
Qed.

Lemma WORD_small (z : Z) : 0 <= z < 65536 -> WORD z = z.
Proof. intros Hz. unfold WORD. apply Z.mod_small. exact Hz. Qed.

(** Inside the range of [datetime], no field is wrapped by its [WORD]. *)
Lemma fill_SYSTEMTIME_fields (dt : datetime) :
  0 <= dt < datetime_end ->
  fill_SYSTEMTIME dt
  = {| wYear := Datetime.year dt; wMonth := Datetime.month dt; wDayOfWeek := 0;
       wDay := Datetime.day dt; wHour := Datetime.hour dt;
       wMinute := Datetime.minute dt; wSecond := Datetime.second dt;
       wMilliseconds := Datetime.microsecond dt / 1000 |}.
Proof.
  intros Hdt. unfold datetime_end in Hdt.
  assert (Hus : Datetime.us_per_day = 86400000000) by reflexivity.
  assert (Ho : 1 <= Datetime.toordinal dt <= 3652059).
  { unfold Datetime.toordinal. rewrite Hus in *.
    pose proof (Z.div_pos dt 86400000000 ltac:(lia) ltac:(lia)).
    assert (dt / 86400000000 < 3652059) by (apply Z.div_lt_upper_bound; lia). lia. }
  pose proof (ord2ymd_bounds _ Ho) as Hb.
  unfold fill_SYSTEMTIME, Datetime.year, Datetime.month, Datetime.day.
  destruct (Calendar.ord2ymd (Datetime.toordinal dt)) as [[y m] d].
  pose proof (Z.mod_pos_bound dt 86400000000 ltac:(lia)) as Ht.
  assert (Hh : 0 <= Datetime.hour dt < 65536).
  { unfold Datetime.hour, Datetime.timepart, Datetime.us_per_second. rewrite Hus.
    change (3600 * 1000000) with 3600000000.
    split; [apply Z.div_pos | apply Z.div_lt_upper_bound]; lia. }
  assert (Hmi : 0 <= Datetime.minute dt < 65536).
  { unfold Datetime.minute. pose proof (Z.mod_pos_bound
      (Datetime.timepart dt / (60 * Datetime.us_per_second)) 60 ltac:(lia)). lia. }
  assert (Hs : 0 <= Datetime.second dt < 65536).
  { unfold Datetime.second. pose proof (Z.mod_pos_bound
      (Datetime.timepart dt / Datetime.us_per_second) 60 ltac:(lia)). lia. }
  assert (Hms : 0 <= Datetime.microsecond dt / 1000 < 65536).
  { unfold Datetime.microsecond, Datetime.us_per_second.
    pose proof (Z.mod_pos_bound dt 1000000 ltac:(lia)).
    split; [apply Z.div_pos | apply Z.div_lt_upper_bound]; lia. }
  rewrite !WORD_small by lia. reflexivity.
Qed.

(** The time of day written into [SYSTEMTIME] is the time of day of the
    argument, cut to whole milliseconds. *)
Lemma SYSTEMTIME_time_of_day (dt : datetime) :
  ((Datetime.hour dt * 60 + Datetime.minute dt) * 60 + Datetime.second dt) * 1000
  + Datetime.microsecond dt / 1000
  = Datetime.timepart dt / 1000.
Proof.
  unfold Datetime.hour, Datetime.minute, Datetime.second, Datetime.microsecond,
    Datetime.timepart, Datetime.us_per_day, Datetime.us_per_second.
  change (86400 * 1000000) with 86400000000.
  change (3600 * 1000000) with 3600000000. change (60 * 1000000) with 60000000.
  Z.to_euclidean_division_equations. lia.
Qed.

(** ** One line of input *)

Section HandleLine.

Context `{Collaborators}.

(** The offset that the loop stores for the fix [g] read between the
    ticks [t_start] and [t_end]. *)
Lemma handle_line_decode (c : call_outcome) (t_start : Q) (text : string) (t_end : Q)
    (first : bool) (a : App) :
  handle_line c t_start text t_end first a =
  match decode text with
  | Some g =>
      let dt_sec :=
        Datetime.total_seconds
          (Datetime.aware_sub (astimezone (Datetime.replace_tzinfo_utc g))
             (astimezone_naive (perf_to_system_time a ((t_start + t_end) / 2)))) in
      let a1 :=
        set_last_delta_sec (Some dt_sec)
          (set_gps_time_str (Datetime.strftime_utc g) (set_last_gps_utc (Some g) a)) in
      if auto_connect_var a && negb first
      then (Normal true, sync_time c (Some g) a1)
      else (Normal first, a1)
  | None =>
      match line_raises text with
      | Some e => (Raised e, a)
      | None => (Normal first, a)
      end
  end.
Proof.
  unfold handle_line, decode, line_raises.
  destruct (PyStr.truthy (PyStr.strip text)); simpl; [ | reflexivity].
  destruct (PyStr.startswith (PyStr.strip text) "$GPRMC"
            || PyStr.startswith (PyStr.strip text) "$GNRMC"); [ | reflexivity].
  destruct (pynmea2_parse (PyStr.strip text)) as [msg | ]; [ | reflexivity].
  destruct (is_valid msg); [ | reflexivity].
  destruct (convert_nmea_to_datetime msg) as [g | | e]; reflexivity.
Qed.

(** A line is accepted or raises, not both. *)
Lemma decode_line_raises (text : string) (g : datetime) :
  decode text = Some g -> line_raises text = None.
Proof.
  unfold decode, line_raises.
  destruct (PyStr.truthy (PyStr.strip text)
            && (PyStr.startswith (PyStr.strip text) "$GPRMC"
                || PyStr.startswith (PyStr.strip text) "$GNRMC")); [ | reflexivity].
  destruct (pynmea2_parse (PyStr.strip text)) as [msg | ]; [ | reflexivity].
  destruct (is_valid msg); [ | reflexivity].
  destruct (convert_nmea_to_datetime msg) as [g' | | e]; [reflexivity | | ];
    intros Hd; discriminate Hd.
Qed.

(** Conversion to the process's zone keeps the absolute instant. *)
Lemma instant_astimezone (x : Datetime.aware) :
  Datetime.instant (astimezone x) = Datetime.instant x.
Proof.
  unfold astimezone, Datetime.add. cbv zeta.
  unfold Datetime.instant at 1. simpl. lia.
Qed.

(** The absolute instant of the converted fix is the fix itself. *)
Lemma instant_astimezone_utc (g : datetime) :
  Datetime.instant (astimezone (Datetime.replace_tzinfo_utc g)) = g.
Proof.
  rewrite instant_astimezone. unfold Datetime.instant, Datetime.replace_tzinfo_utc.
  simpl. lia.
Qed.

(** The absolute instant of a local reading. *)
Lemma instant_astimezone_naive (dt : datetime) :
  Datetime.instant (astimezone_naive dt) = dt - utcoffset_of_local dt.
Proof. unfold astimezone_naive. rewrite instant_astimezone. reflexivity. Qed.

(** What an accepted fix leaves in the tracker. *)
Lemma handle_line_stores (c : call_outcome) (t_start : Q) (text : string) (t_end : Q)
    (first : bool) (a : App) (g : datetime) :
  decode text = Some g ->
  let a' := snd (handle_line c t_start text t_end first a) in
  last_gps_utc a' = Some g
  /\ gps_time_str a' = Datetime.strftime_utc g
  /\ last_delta_sec a'
     = Some (Datetime.total_seconds
               (Datetime.aware_sub (astimezone (Datetime.replace_tzinfo_utc g))
                  (astimezone_naive (perf_to_system_time a ((t_start + t_end) / 2))))).
Proof.
  intros Hdec a'. subst a'. rewrite handle_line_decode, Hdec. cbv zeta.
  destruct (auto_connect_var a && negb first); cbn [snd].
  - rewrite sync_time_emit. repeat split; reflexivity.
  - repeat split; reflexivity.
Qed.

(** C1: every fix that the decoder accepts is stored as the current fix,
    and the offset stored with it is the fix converted to an aware local
    instant minus the mid-point estimate [received_at] converted to an aware
    local instant, in seconds; this is the difference of the two absolute
    instants, whatever the zone.  When the sentence decodes to
    1994-03-23T12:35:19 and [received_at] is the local reading of
    12:35:19.050 UTC, the offset is -0.05 s. *)
Theorem offset_tracker_update (c : call_outcome) (t_start : Q) (text : string) (t_end : Q)
    (first : bool) (a : App) (g : datetime) :
  decode text = Some g ->
  let a' := snd (handle_line c t_start text t_end first a) in
  let received_at := perf_to_system_time a ((t_start + t_end) / 2) in
  last_gps_utc a' = Some g /\
  exists d : Q,
    last_delta_sec a' = Some d /\
    d = Datetime.total_seconds
          (Datetime.aware_sub (astimezone (Datetime.replace_tzinfo_utc g))
             (astimezone_naive received_at)) /\
    (d == inject_Z (g - (received_at - utcoffset_of_local received_at))
          / inject_Z Datetime.us_per_second)%Q /\
    (g = Datetime.mk 1994 3 23 12 35 19 0 ->
     Datetime.instant (astimezone_naive received_at) = Datetime.mk 1994 3 23 12 35 19 50000 ->
     (d == - (5 # 100))%Q).
Proof.
  intros Hdec a' received_at.
  destruct (handle_line_stores c t_start text t_end first a g Hdec) as (Hfix & _ & Hdelta).
  fold a' in Hfix, Hdelta. fold received_at in Hdelta.
  split; [exact Hfix | ].
  eexists. split; [exact Hdelta | split; [reflexivity | split]].
  - rewrite total_seconds_spec.
    unfold Datetime.aware_sub, Datetime.sub.
    rewrite instant_astimezone_utc, instant_astimezone_naive.
    reflexivity.
  - intros Hg Hr.
    unfold Datetime.aware_sub, Datetime.sub. rewrite instant_astimezone_utc.
    rewrite Hr, Hg. reflexivity.
Qed.




End HandleLine.

(** ** The clock domain bridge *)

(** Case analysis of one event: every function of the program is
    unfolded down to the setters, and each test is split. *)
Ltac split_tests :=
  repeat (match goal with
          | |- context [match ?x with _ => _ end] =>
              lazymatch x with
              | context [match _ with _ => _ end] => fail
              | context [handle_line] => fail
              | _ => destruct x eqn:?
              end
          end;
          cbv beta iota zeta;
          cbn [config_sync_interval_minutes set_config_sync_interval_minutes
               emit set_out fst snd]).

Ltac unfold_step :=
  unfold step, connect_to_gps, disconnect_from_gps, apply_auto_sync_interval,
    auto_sync_callback, schedule_auto_sync, int_of_float, float_scale,
    gps_thread_loop_step, gps_thread_loop_body, read_error, log_status in *;
  rewrite ?sync_time_emit, ?handle_line_decode in *.

Ltac step_cases :=
  unfold_step; cbv zeta;
  cbn [config_sync_interval_minutes set_config_sync_interval_minutes emit set_out fst snd];
  repeat (progress (split_tests; rewrite ?sync_time_emit, ?handle_line_decode;
                    cbv beta iota zeta;
                    cbn [config_sync_interval_minutes set_config_sync_interval_minutes
                         emit set_out fst snd])).

Section Bridge.

Context `{Collaborators}.

Lemma step_anchor (a : App) (ev : event) :
  perf_base (step a ev) = perf_base a /\ time_base (step a ev) = time_base a.
Proof.
  destruct ev; step_cases; split; reflexivity.
Qed.

Lemma run_anchor (evs : list event) (a : App) :
  perf_base (run a evs) = perf_base a /\ time_base (run a evs) = time_base a.
Proof.
  revert a. induction evs as [ | ev evs IH]; intros a; simpl.
  - split; reflexivity.
  - destruct (IH (step a ev)) as [Hp Ht]. destruct (step_anchor a ev) as [Hp' Ht'].
    unfold run in *. simpl. split; congruence.
Qed.

(** C3: the tick handed to the bridge for an accepted line is the
    arithmetic mean of the ticks read before and after the read; the
    estimate for a tick is the wall-clock anchor plus the tick's distance
    from the tick anchor, as a [timedelta] (so within half a microsecond of
    the exact sum, and equal to it when the distance is a whole number of
    microseconds); both anchors are the readings taken at start-up and no
    event changes them; and the estimate does not decrease when the tick
    grows. *)
Theorem clock_bridge (a : App) :
  (forall (c : call_outcome) (t_start : Q) (text : string) (t_end : Q) (first : bool)
          (g : datetime),
      decode text = Some g ->
      exists t_mid : Q,
        (t_mid == (t_start + t_end) / 2)%Q
        /\ (t_mid - t_start == t_end - t_mid)%Q
        /\ last_delta_sec (snd (handle_line c t_start text t_end first a))
           = Some (Datetime.total_seconds
                     (Datetime.aware_sub (astimezone (Datetime.replace_tzinfo_utc g))
                        (astimezone_naive (perf_to_system_time a t_mid)))))
  /\ (forall tick : Q,
         perf_to_system_time a tick
         = time_base a + Datetime.timedelta_of_seconds (tick - perf_base a)
         /\ (Qabs (inject_Z (perf_to_system_time a tick)
                   - (inject_Z (time_base a)
                      + (tick - perf_base a) * inject_Z Datetime.us_per_second))
             <= 1 # 2)%Q)
  /\ (forall (tick : Q) (us : Z),
         (tick - perf_base a == inject_Z us / inject_Z Datetime.us_per_second)%Q ->
         perf_to_system_time a tick = time_base a + us)
  /\ (forall (cfg : Config) (perf_now : Q) (now : datetime) (evs : list event),
         perf_base (run (init cfg perf_now now) evs) = perf_now
         /\ time_base (run (init cfg perf_now now) evs) = now)
  /\ (forall evs : list event,
         perf_base (run a evs) = perf_base a /\ time_base (run a evs) = time_base a)
  /\ (forall t1 t2 : Q,
         (t1 <= t2)%Q -> perf_to_system_time a t1 <= perf_to_system_time a t2).
Proof.
  split; [ | split; [ | split; [ | split; [ | split]]]].
  - intros c t_start text t_end first g Hdec.
    exists ((t_start + t_end) / 2)%Q. split; [reflexivity | split; [field | ]].
    exact (proj2 (proj2 (handle_line_stores c t_start text t_end first a g Hdec))).
  - intros tick. split; [reflexivity | ].
    unfold perf_to_system_time, Datetime.timedelta_of_seconds.
    pose proof (round_half_even_near
                  ((tick - perf_base a) * inject_Z Datetime.us_per_second)) as [Hlo Hhi].
    unfold Datetime.add. rewrite inject_Z_plus.
    apply Qabs_Qle_condition. split; lra.
  - intros tick us Hus. unfold perf_to_system_time, Datetime.add. f_equal.
    unfold Datetime.timedelta_of_seconds.
    transitivity (Datetime.round_half_even (inject_Z us));
      [ | apply round_half_even_Z].
    apply round_half_even_comp. rewrite Hus. field. discriminate.
  - intros cfg perf_now now evs.
    destruct (run_anchor evs (init cfg perf_now now)) as [Hp Ht]. rewrite Hp, Ht.
    rewrite init_unfold. cbv zeta. simpl. destruct (auto_connect_sync cfg); [ | split; reflexivity].
    unfold connect_to_gps. simpl.
    destruct (PyStr.truthy (com_port cfg)); split; reflexivity.
  - intros evs. apply run_anchor.
  - intros t1 t2 Hle. unfold perf_to_system_time, Datetime.add.
    apply Z.add_le_mono_l. apply timedelta_of_seconds_mono. lra.
Qed.

End Bridge.

(** ** Synchronisation *)

Section Sync.

Context `{Collaborators}.

Lemma clock_call_is_mutation (local : bool) (g : datetime) :
  is_clock_mutation (clock_call local g) = true /\ is_auto_sync (clock_call local g) = false.
Proof. destruct local; split; reflexivity. Qed.

Lemma clock_mutations_sync_effects (c : call_outcome) (ovr : option datetime) (a : App) :
  clock_mutations (sync_effects c ovr a)
  = match resolve_instant ovr a with
    | Some g => [clock_call (use_local_time_var a) g]
    | None => []
    end.
Proof.
  pose proof (sync_effects_resolved c ovr a) as Hs.
  destruct (resolve_instant ovr a) as [g | ].
  - destruct Hs as (r & Hr & _ & ->). unfold clock_mutations. simpl.
    rewrite Hr, (proj1 (clock_call_is_mutation _ _)). reflexivity.
  - rewrite Hs. reflexivity.
Qed.

Lemma auto_syncs_sync_effects (c : call_outcome) (ovr : option datetime) (a : App) :
  auto_syncs (sync_effects c ovr a)
  = match ovr with
    | Some _ => [SyncCalled ovr]
    | None => []
    end.
Proof.
  pose proof (sync_effects_resolved c ovr a) as Hs.
  destruct (resolve_instant ovr a) as [g | ] eqn:Hres.
  - destruct Hs as (r & _ & Hr & ->). unfold auto_syncs. simpl.
    rewrite Hr, (proj2 (clock_call_is_mutation _ _)). destruct ovr; reflexivity.
  - rewrite Hs. destruct ovr; [discriminate Hres | reflexivity].
Qed.

Lemma clock_mutations_app (es fs : list effect) :
  clock_mutations (es ++ fs) = (clock_mutations es ++ clock_mutations fs)%list.
Proof. apply filter_app. Qed.

Lemma auto_syncs_app (es fs : list effect) :
  auto_syncs (es ++ fs) = (auto_syncs es ++ auto_syncs fs)%list.
Proof. apply filter_app. Qed.

(** [sync_time] reads the preference, the last fix and the display
    string, and nothing else of the state. *)
Lemma sync_effects_reads (c : call_outcome) (ovr : option datetime) (a b : App) :
  use_local_time_var b = use_local_time_var a ->
  last_gps_utc b = last_gps_utc a ->
  gps_time_str b = gps_time_str a ->
  sync_effects c ovr b = sync_effects c ovr a.
Proof.
  destruct a as [ci cp sp sb au ul gs lg ld pb tb kr rt so tm o], b. simpl.
  intros -> -> ->.
  unfold sync_effects, sync_time, set_system_time_local, set_system_time_utc, log_status.
  simpl.
  destruct ovr as [g | ]; [ | destruct lg as [g | ];
    [ | destruct (PyStr.contains "UTC" gs); simpl;
        [ destruct (strptime (PyStr.replace gs " UTC" "") "%Y-%m-%d %H:%M:%S") as [g | ] | ] ] ];
    try reflexivity; destruct ul; destruct c; reflexivity.
Qed.

(** The three actions of a call that finds an instant to apply. *)
Lemma sync_effects_form (c : call_outcome) (ovr : option datetime) (a : App) (g : datetime) :
  resolve_instant ovr a = Some g ->
  let local_naive :=
    Datetime.replace_tzinfo_none (astimezone (Datetime.replace_tzinfo_utc g)) in
  sync_effects c ovr a
  = SyncCalled ovr
    :: (if use_local_time_var a
        then match c with
             | Returns =>
                 [SetLocalTime (fill_SYSTEMTIME local_naive);
                  LogStatus ("System time set to LOCAL: " ++ Datetime.isoformat local_naive)]
             | Raises e =>
                 [SetLocalTime (fill_SYSTEMTIME local_naive);
                  ShowError "Sync Error" ("Failed to set system time (Local): " ++ e)]
             end
        else match c with
             | Returns =>
                 [SetSystemTime (fill_SYSTEMTIME g);
                  LogStatus ("System time set to UTC: " ++ Datetime.isoformat g)]
             | Raises e =>
                 [SetSystemTime (fill_SYSTEMTIME g);
                  ShowError "Sync Error" ("Failed to set system time (UTC): " ++ e)]
             end).
Proof.
  intros Hres local_naive. subst local_naive. revert Hres.
  unfold resolve_instant, sync_effects, sync_time, set_system_time_local,
    set_system_time_utc, log_status.
  destruct a as [ci cp sp sb au ul gs lg ld pb tb kr rt so tm o]. simpl.
  destruct ovr as [g0 | ]; [ | destruct lg as [g0 | ];
    [ | destruct (PyStr.contains "UTC" gs); simpl;
        [ destruct (strptime (PyStr.replace gs " UTC" "") "%Y-%m-%d %H:%M:%S") as [g0 | ]
        | ] ] ];
    intros Hres; try discriminate Hres; injection Hres as ->;
    destruct ul; destruct c; reflexivity.
Qed.

(** C5: for the instant that [sync_time] resolves, with the local-time
    preference on the clock is set through [SetLocalTime] to the naive
    local reading of that instant (UTC attached, converted to the process's
    zone, zone stripped); with the preference off it is set through
    [SetSystemTime] to the naive UTC instant itself.  One call is made, and
    it is reported to the status box, or its failure in a pop-up. *)
Theorem sync_applies_representation (c : call_outcome) (ovr : option datetime) (a : App)
    (g : datetime) :
  resolve_instant ovr a = Some g ->
  let local_naive :=
    Datetime.replace_tzinfo_none (astimezone (Datetime.replace_tzinfo_utc g)) in
  out (sync_time c ovr a) = (out a ++ sync_effects c ovr a)%list
  /\ local_naive = g + utcoffset_of_utc g
  /\ (use_local_time_var a = true ->
      clock_mutations (sync_effects c ovr a) = [SetLocalTime (fill_SYSTEMTIME local_naive)]
      /\ (c = Returns ->
          sync_effects c ovr a
          = [SyncCalled ovr; SetLocalTime (fill_SYSTEMTIME local_naive);
             LogStatus ("System time set to LOCAL: " ++ Datetime.isoformat local_naive)])
      /\ (forall e, c = Raises e ->
          sync_effects c ovr a
          = [SyncCalled ovr; SetLocalTime (fill_SYSTEMTIME local_naive);
             ShowError "Sync Error" ("Failed to set system time (Local): " ++ e)]))
  /\ (use_local_time_var a = false ->
      clock_mutations (sync_effects c ovr a) = [SetSystemTime (fill_SYSTEMTIME g)]
      /\ (c = Returns ->
          sync_effects c ovr a
          = [SyncCalled ovr; SetSystemTime (fill_SYSTEMTIME g);
             LogStatus ("System time set to UTC: " ++ Datetime.isoformat g)])
      /\ (forall e, c = Raises e ->
          sync_effects c ovr a
          = [SyncCalled ovr; SetSystemTime (fill_SYSTEMTIME g);
             ShowError "Sync Error" ("Failed to set system time (UTC): " ++ e)])).
Proof.
  intros Hres local_naive.
  split; [apply sync_time_out | ].
  split.
  { subst local_naive. unfold astimezone, Datetime.replace_tzinfo_none,
      Datetime.replace_tzinfo_utc, Datetime.instant, Datetime.add. simpl.
    f_equal; [lia | f_equal; lia]. }
  assert (Hcm := clock_mutations_sync_effects c ovr a). rewrite Hres in Hcm.
  pose proof (sync_effects_form c ovr a g Hres) as Hform. fold local_naive in Hform.
  split; intros Hlocal; rewrite Hlocal in *.
  - split; [exact Hcm | ]. split.
    + intros ->. exact Hform.
    + intros e ->. exact Hform.
  - split; [exact Hcm | ]. split.
    + intros ->. exact Hform.
    + intros e ->. exact Hform.
Qed.

End Sync.

(** ** Runs of the application *)

(** Closes the branches of a case analysis that contradict what is known
    of the event, and computes the recorded actions. *)
Ltac compute_state :=
  cbn [out emit set_out set_timers set_read_thread set_ser_open set_keep_reading
       set_config_com_port set_config_sync_interval_minutes set_auto_connect_var
       set_use_local_time_var set_last_gps_utc set_gps_time_str set_last_delta_sec
       last_gps_utc gps_time_str last_delta_sec timers read_thread keep_reading
       ser_open auto_connect_var use_local_time_var config_sync_interval_minutes
       config_com_port selected_port selected_baud perf_base time_base fst snd] in *.

Ltac use_tests :=
  repeat match goal with
    | E : ?x = _, Hf : context [match ?x with _ => _ end] |- _ => rewrite E in Hf
    end.

Ltac finish_case :=
  try (unfold event_fix in *; use_tests; congruence);
  compute_state;
  rewrite ?auto_syncs_app, ?clock_mutations_app, ?auto_syncs_sync_effects;
  cbn [auto_syncs clock_mutations filter is_auto_sync is_clock_mutation];
  rewrite ?app_nil_r;
  try reflexivity; try congruence.

Section Runs.

Context `{Collaborators}.

Lemma run_app (a : App) (evs evs' : list event) :
  run a (evs ++ evs') = run (run a evs) evs'.
Proof. unfold run. apply fold_left_app. Qed.

Lemma run_cons (a : App) (ev : event) (evs : list event) :
  run a (ev :: evs) = run (step a ev) evs.
Proof. reflexivity. Qed.

(** An event that carries no fix leaves the tracker alone and starts no
    synchronisation from the reader thread. *)
Lemma step_no_fix (a : App) (ev : event) :
  event_fix ev = None ->
  last_gps_utc (step a ev) = last_gps_utc a
  /\ gps_time_str (step a ev) = gps_time_str a
  /\ last_delta_sec (step a ev) = last_delta_sec a
  /\ auto_syncs (out (step a ev)) = auto_syncs (out a).
Proof.
  intros Hfix.
  destruct ev; step_cases; repeat split; finish_case.
Qed.

Lemma run_no_fix (evs : list event) (a : App) :
  Forall (fun ev => event_fix ev = None) evs ->
  last_gps_utc (run a evs) = last_gps_utc a
  /\ gps_time_str (run a evs) = gps_time_str a
  /\ last_delta_sec (run a evs) = last_delta_sec a
  /\ auto_syncs (out (run a evs)) = auto_syncs (out a).
Proof.
  intros Hall. revert a. induction Hall as [ | ev evs Hev _ IH]; intros a.
  - repeat split; reflexivity.
  - rewrite run_cons. destruct (IH (step a ev)) as (E1 & E2 & E3 & E4).
    destruct (step_no_fix a ev Hev) as (F1 & F2 & F3 & F4).
    repeat split; congruence.
Qed.

Lemma resolve_no_fix (a : App) :
  last_gps_utc a = None -> gps_time_str a = "--:--:--" -> resolve_instant None a = None.
Proof. intros Hl Hs. unfold resolve_instant. rewrite Hl, Hs. reflexivity. Qed.

Lemma step_no_fix_yet (a : App) (ev : event) :
  event_fix ev = None -> no_fix_yet a -> no_fix_yet (step a ev).
Proof.
  intros Hfix (Hl & Hs & Hc).
  destruct (step_no_fix a ev Hfix) as (E1 & E2 & _ & _).
  split; [congruence | split; [congruence | ]].
  destruct ev; step_cases; finish_case; rewrite ?Hc; try reflexivity;
    rewrite clock_mutations_sync_effects, resolve_no_fix by (compute_state; assumption);
    reflexivity.
Qed.

Lemma init_no_fix_yet (cfg : Config) (perf_now : Q) (now : datetime) :
  no_fix_yet (init cfg perf_now now).
Proof.
  rewrite init_unfold; unfold no_fix_yet, connect_to_gps, log_status. cbv zeta.
  compute_state. destruct (auto_connect_sync cfg); [ | repeat split; reflexivity].
  compute_state. destruct (PyStr.truthy (com_port cfg)); repeat split; reflexivity.
Qed.

Lemma run_no_fix_yet (evs : list event) (a : App) :
  Forall (fun ev => event_fix ev = None) evs -> no_fix_yet a -> no_fix_yet (run a evs).
Proof.
  intros Hall. revert a. induction Hall as [ | ev evs Hev _ IH]; intros a Ha.
  - exact Ha.
  - rewrite run_cons. apply IH. apply step_no_fix_yet; assumption.
Qed.

(** C4: as long as no event has brought a fix, [sync_time()] called with
    no argument reports "No valid GPS time available." in an error pop-up
    and does nothing else: the state is untouched, and neither
    [SetSystemTime] nor [SetLocalTime] is called, by this call or by any
    before it. *)
Theorem sync_without_fix_fails (cfg : Config) (perf_now : Q) (now : datetime)
    (evs : list event) (c : call_outcome) :
  Forall (fun ev => event_fix ev = None) evs ->
  let a := run (init cfg perf_now now) evs in
  last_gps_utc a = None
  /\ sync_time c None a = emit [SyncCalled None; no_fix_available] a
  /\ clock_mutations (sync_effects c None a) = []
  /\ clock_mutations (out (sync_time c None a)) = [].
Proof.
  intros Hall a.
  destruct (run_no_fix_yet evs _ Hall (init_no_fix_yet cfg perf_now now))
    as (Hl & Hs & Hc).
  fold a in Hl, Hs, Hc.
  pose proof (sync_effects_resolved c None a) as Heff.
  rewrite (resolve_no_fix a Hl Hs) in Heff.
  split; [exact Hl | ].
  split; [rewrite sync_time_emit, Heff; reflexivity | ].
  split; [rewrite Heff; reflexivity | ].
  rewrite sync_time_out, clock_mutations_app, Hc, Heff. reflexivity.
Qed.

(** C9: with no argument and no fix stored, [sync_time] falls back on the
    GPS-time display string: when the string contains "UTC" and, with
    " UTC" removed, parses in the format "%Y-%m-%d %H:%M:%S", the parsed
    instant is applied to the clock; the "no valid GPS time" error is
    raised exactly when the string lacks "UTC" or does not parse, and then
    the clock is not set. *)
Theorem sync_fallback_display_string (c : call_outcome) (a : App) :
  last_gps_utc a = None ->
  let label_str := gps_time_str a in
  let parsed := strptime (PyStr.replace label_str " UTC" "") "%Y-%m-%d %H:%M:%S" in
  (forall g : datetime,
      PyStr.contains "UTC" label_str = true ->
      parsed = Some g ->
      resolve_instant None a = Some g
      /\ clock_mutations (sync_effects c None a) = [clock_call (use_local_time_var a) g]
      /\ ~ In no_fix_available (sync_effects c None a))
  /\ (In no_fix_available (sync_effects c None a)
      <-> PyStr.contains "UTC" label_str = false \/ parsed = None)
  /\ (PyStr.contains "UTC" label_str = false \/ parsed = None ->
      sync_time c None a = emit [SyncCalled None; no_fix_available] a
      /\ clock_mutations (sync_effects c None a) = []).
Proof.
  intros Hl label_str parsed.
  assert (Hres : resolve_instant None a
                 = if PyStr.contains "UTC" label_str then parsed else None).
  { unfold resolve_instant. rewrite Hl. fold label_str.
    destruct (PyStr.contains "UTC" label_str); reflexivity. }
  pose proof (sync_effects_resolved c None a) as Heff.
  pose proof (clock_mutations_sync_effects c None a) as Hcm.
  assert (Hnot : forall g, resolve_instant None a = Some g ->
                           ~ In no_fix_available (sync_effects c None a)).
  { intros g Hg Hin.
    pose proof (sync_effects_form c None a g Hg) as Hform. cbv zeta in Hform.
    rewrite Hform in Hin. unfold no_fix_available in Hin.
    destruct (use_local_time_var a), c; simpl in Hin;
      repeat (destruct Hin as [Hin | Hin]; [discriminate Hin | ]); exact Hin. }
  split; [ | split].
  - intros g Hc Hp. rewrite Hc, Hp in Hres.
    split; [exact Hres | ]. split.
    + rewrite Hcm, Hres. reflexivity.
    + exact (Hnot g Hres).
  - split.
    + intros Hin. destruct (PyStr.contains "UTC" label_str); [ | left; reflexivity].
      destruct parsed as [g | ]; [ | right; reflexivity].
      exfalso. exact (Hnot g Hres Hin).
    + intros Hfail.
      assert (Hnone : resolve_instant None a = None).
      { rewrite Hres. destruct Hfail as [-> | ->]; [reflexivity | ].
        destruct (PyStr.contains "UTC" label_str); reflexivity. }
      rewrite Hnone in Heff. rewrite Heff. right. left. reflexivity.
  - intros Hfail.
    assert (Hnone : resolve_instant None a = None).
    { rewrite Hres. destruct Hfail as [-> | ->]; [reflexivity | ].
      destruct (PyStr.contains "UTC" label_str); reflexivity. }
    rewrite Hnone in Heff, Hcm.
    split; [rewrite sync_time_emit, Heff; reflexivity | exact Hcm].
Qed.

(** ** Connection sessions *)

(** A session starts when [connect_to_gps] starts the reader thread. *)
Lemma connect_starts_session (a : App) :
  read_thread a = None ->
  PyStr.truthy (selected_port a) = true ->
  read_thread (connect_to_gps a) = Some false
  /\ keep_reading (connect_to_gps a) = true
  /\ auto_syncs (out (connect_to_gps a)) = auto_syncs (out a).
Proof.
  intros Hr Hp. unfold connect_to_gps, log_status. rewrite Hr, Hp.
  cbn [negb]. cbv zeta. compute_state.
  rewrite auto_syncs_app. cbn [auto_syncs filter is_auto_sync].
  rewrite app_nil_r. repeat split; reflexivity.
Qed.

(** One event of a session: the reader thread stays alive, and its local
    flag either keeps its value, with no synchronisation started, or goes
    from [false] to [true] with exactly one started. *)
Lemma step_session (a : App) (ev : event) (f : bool) :
  is_disconnect ev = false ->
  keep_reading a = true ->
  read_thread a = Some f ->
  keep_reading (step a ev) = true
  /\ exists f' : bool,
      read_thread (step a ev) = Some f'
      /\ ((f' = f /\ auto_syncs (out (step a ev)) = auto_syncs (out a))
          \/ (f = false /\ f' = true
              /\ exists g, auto_syncs (out (step a ev))
                           = (auto_syncs (out a) ++ [SyncCalled (Some g)])%list)).
Proof.
  intros Hd Hk Hr.
  destruct ev; try discriminate Hd; step_cases; compute_state;
    try congruence;
    (split; [assumption || reflexivity | ]);
    eexists; (split; [eassumption || reflexivity | ]);
    first [ left; split; [congruence | finish_case; fail]
          | right; repeat match goal with
                     | E : _ && _ = true |- _ => apply andb_true_iff in E; destruct E
                     | E : negb _ = true |- _ => apply negb_true_iff in E
                     end;
            split; [congruence | split; [reflexivity | eexists; finish_case; fail]] ].
Qed.

Lemma run_session (evs : list event) (a : App) (f : bool) :
  forallb (fun ev => negb (is_disconnect ev)) evs = true ->
  keep_reading a = true ->
  read_thread a = Some f ->
  keep_reading (run a evs) = true
  /\ exists f' : bool,
      read_thread (run a evs) = Some f'
      /\ ((f' = f /\ auto_syncs (out (run a evs)) = auto_syncs (out a))
          \/ (f = false /\ f' = true
              /\ exists g, auto_syncs (out (run a evs))
                           = (auto_syncs (out a) ++ [SyncCalled (Some g)])%list)).
Proof.
  revert a f. induction evs as [ | ev evs IH]; intros a f Hall Hk Hr.
  - split; [exact Hk | ]. exists f. split; [exact Hr | left; split; reflexivity].
  - simpl in Hall. apply andb_true_iff in Hall. destruct Hall as [Hev Hall].
    apply negb_true_iff in Hev.
    destruct (step_session a ev f Hev Hk Hr) as (Hk1 & f1 & Hr1 & Hcase).
    destruct (IH (step a ev) f1 Hall Hk1 Hr1) as (Hk2 & f2 & Hr2 & Hcase2).
    rewrite run_cons. split; [exact Hk2 | ]. exists f2. split; [exact Hr2 | ].
    destruct Hcase as [[-> E1] | (-> & -> & g & E1)].
    + destruct Hcase2 as [[-> E2] | (-> & -> & g & E2)].
      * left. split; [reflexivity | congruence].
      * right. split; [reflexivity | split; [reflexivity | ]]. exists g. congruence.
    + destruct Hcase2 as [[-> E2] | (Hf & _)]; [ | discriminate Hf].
      right. split; [reflexivity | split; [reflexivity | ]]. exists g. congruence.
Qed.

Lemma step_keeps_auto_connect (a : App) (ev : event) :
  clears_auto_connect ev = false ->
  auto_connect_var a = true ->
  auto_connect_var (step a ev) = true.
Proof.
  intros Hc Ha.
  destruct ev as [ | | [ | ] | | | | | ]; try discriminate Hc;
    step_cases; compute_state; congruence.
Qed.

Lemma run_keeps_auto_connect (evs : list event) (a : App) :
  forallb (fun ev => negb (clears_auto_connect ev)) evs = true ->
  auto_connect_var a = true ->
  auto_connect_var (run a evs) = true.
Proof.
  revert a. induction evs as [ | ev evs IH]; intros a Hall Ha; [exact Ha | ].
  simpl in Hall. apply andb_true_iff in Hall. destruct Hall as [Hev Hall].
  apply negb_true_iff in Hev. rewrite run_cons.
  apply IH; [exact Hall | apply step_keeps_auto_connect; assumption].
Qed.

(** The pass that reads the first fix of a session, with the flag on. *)
Lemma iteration_fix_fires (a : App) (i : iteration) (t_start : Q) (text : string)
    (t_end : Q) (g : datetime) :
  read_thread a = Some false ->
  keep_reading a = true ->
  auto_connect_var a = true ->
  it_open i = Returns ->
  it_read i = ReadLine t_start text t_end ->
  decode text = Some g ->
  auto_syncs (out (step a (EvIteration i)))
  = (auto_syncs (out a) ++ [SyncCalled (Some g)])%list
  /\ clock_mutations (out (step a (EvIteration i)))
     = (clock_mutations (out a) ++ [clock_call (use_local_time_var a) g])%list.
Proof.
  intros Hr Hk Ha Ho Hread Hdec.
  unfold step, gps_thread_loop_step, gps_thread_loop_body.
  rewrite Hr, Hk, Ho, Hread. cbv zeta.
  destruct (ser_open a); cbn [negb]; rewrite handle_line_decode, Hdec; cbv zeta;
    compute_state; rewrite Ha; cbn [negb andb]; compute_state;
    rewrite sync_time_emit; compute_state;
    rewrite ?auto_syncs_app, ?clock_mutations_app, auto_syncs_sync_effects,
      clock_mutations_sync_effects;
    cbn [resolve_instant]; compute_state; rewrite ?app_nil_r; split; reflexivity.
Qed.

Lemma app_one_neq {A : Type} (l : list A) (x : A) : (l ++ [x])%list <> l.
Proof.
  intros E. apply (f_equal (@length A)) in E. rewrite length_app in E. simpl in E. lia.
Qed.

(** C6: within one connection session (one run of the reader thread,
    from its start to the next disconnect) the reader thread starts at most
    one synchronisation; with the auto-connect-and-sync flag on throughout,
    it starts it on the first line that decodes to a fix, with that fix, and
    never again however many fixes follow. *)
Theorem auto_sync_once_per_session (a : App) (evs : list event) :
  read_thread a = Some false ->
  keep_reading a = true ->
  forallb (fun ev => negb (is_disconnect ev)) evs = true ->
  (exists fired : list effect,
      auto_syncs (out (run a evs)) = (auto_syncs (out a) ++ fired)%list
      /\ (length fired <= 1)%nat)
  /\ (auto_connect_var a = true ->
      forallb (fun ev => negb (clears_auto_connect ev)) evs = true ->
      forall (pre post : list event) (i : iteration) (t_start t_end : Q) (text : string)
             (g : datetime),
        evs = (pre ++ EvIteration i :: post)%list ->
        Forall (fun ev => event_fix ev = None) pre ->
        it_open i = Returns ->
        it_read i = ReadLine t_start text t_end ->
        decode text = Some g ->
        auto_syncs (out (run a pre)) = auto_syncs (out a)
        /\ auto_syncs (out (run a (pre ++ [EvIteration i])))
           = (auto_syncs (out a) ++ [SyncCalled (Some g)])%list
        /\ auto_syncs (out (run a evs))
           = (auto_syncs (out a) ++ [SyncCalled (Some g)])%list).
Proof.
  intros Hr Hk Hall. split.
  - destruct (run_session evs a false Hall Hk Hr) as (_ & f' & _ & Hcase).
    destruct Hcase as [[_ E] | (_ & _ & g & E)].
    + exists []. rewrite app_nil_r. split; [exact E | simpl; lia].
    + exists [SyncCalled (Some g)]. split; [exact E | simpl; lia].
  - intros Ha Hflag pre post i t_start t_end text g -> Hpre Ho Hread Hdec.
    rewrite forallb_app in Hall, Hflag.
    apply andb_true_iff in Hall. destruct Hall as [Hall_pre Hall_post].
    apply andb_true_iff in Hflag. destruct Hflag as [Hflag_pre _].
    simpl in Hall_post.
    destruct (run_no_fix pre a Hpre) as (_ & _ & _ & Eauto).
    destruct (run_session pre a false Hall_pre Hk Hr) as (Hk1 & f1 & Hr1 & Hcase).
    assert (Hf1 : f1 = false).
    { destruct Hcase as [[-> _] | (_ & _ & g' & E)]; [reflexivity | ].
      rewrite Eauto in E. symmetry in E. exfalso. exact (app_one_neq _ _ E). }
    subst f1.
    pose proof (run_keeps_auto_connect pre a Hflag_pre Ha) as Ha1.
    destruct (iteration_fix_fires (run a pre) i t_start text t_end g
                Hr1 Hk1 Ha1 Ho Hread Hdec) as [Efire _].
    split; [exact Eauto | ].
    assert (Estep : auto_syncs (out (run a (pre ++ [EvIteration i])))
                    = (auto_syncs (out a) ++ [SyncCalled (Some g)])%list).
    { rewrite run_app. change (run (run a pre) [EvIteration i])
        with (step (run a pre) (EvIteration i)). rewrite Efire, Eauto. reflexivity. }
    split; [exact Estep | ].
    destruct (step_session (run a pre) (EvIteration i) false eq_refl Hk1 Hr1)
      as (Hk2 & f2 & Hr2 & Hcase2).
    assert (Hf2 : f2 = true).
    { destruct Hcase2 as [[-> E] | (_ & -> & _)]; [ | reflexivity].
      rewrite Efire in E. exfalso. exact (app_one_neq _ _ E). }
    subst f2.
    destruct (run_session post (step (run a pre) (EvIteration i)) true Hall_post Hk2 Hr2)
      as (_ & f3 & _ & Hcase3).
    rewrite run_app, run_cons.
    destruct Hcase3 as [[_ E] | (Hf & _)]; [ | discriminate Hf].
    rewrite E, Efire, Eauto. reflexivity.
Qed.

End Runs.

(** ** Malformed sentences, the timer chain, and what is applied *)

Section Scheduler.

Context `{Collaborators}.




Lemma py_int_Z (z : Z) : py_int (inject_Z z) = z.
Proof. unfold py_int. simpl. apply Z.quot_1_r. Qed.



(** C10: the clock-setting call carries the fields of the resolved
    instant, which is the argument when there is one and the stored fix
    otherwise, with the microseconds cut to whole milliseconds; the call is
    the same whatever the stored offset, the anchors and the rest of the
    state are, so neither the offset nor the time elapsed since the fix
    enters it; and a timer that fires after any number of events without a
    new fix applies the instant of the old fix. *)
Theorem sync_applies_fix_unadjusted (a : App) :
  (forall g : datetime, resolve_instant (Some g) a = Some g)
  /\ (forall g : datetime, last_gps_utc a = Some g -> resolve_instant None a = Some g)
  /\ (forall (c : call_outcome) (ovr : option datetime) (g : datetime),
         resolve_instant ovr a = Some g ->
         use_local_time_var a = false ->
         0 <= g < datetime_end ->
         clock_mutations (sync_effects c ovr a)
         = [SetSystemTime
              {| wYear := Datetime.year g; wMonth := Datetime.month g; wDayOfWeek := 0;
                 wDay := Datetime.day g; wHour := Datetime.hour g;
                 wMinute := Datetime.minute g; wSecond := Datetime.second g;
                 wMilliseconds := Datetime.microsecond g / 1000 |}]
         /\ ((Datetime.hour g * 60 + Datetime.minute g) * 60 + Datetime.second g) * 1000
            + Datetime.microsecond g / 1000
            = Datetime.timepart g / 1000)
  /\ (forall (c : call_outcome) (ovr : option datetime) (g : datetime),
         resolve_instant ovr a = Some g ->
         use_local_time_var a = true ->
         clock_mutations (sync_effects c ovr a)
         = [SetLocalTime (fill_SYSTEMTIME (g + utcoffset_of_utc g))])
  /\ (forall (c : call_outcome) (ovr : option datetime) (b : App),
         use_local_time_var b = use_local_time_var a ->
         last_gps_utc b = last_gps_utc a ->
         gps_time_str b = gps_time_str a ->
         sync_effects c ovr b = sync_effects c ovr a)
  /\ (forall (c : call_outcome) (ovr : option datetime) (d : option Q),
         sync_effects c ovr (set_last_delta_sec d a) = sync_effects c ovr a)
  /\ (forall (g : datetime) (evs : list event) (k : nat) (c : call_outcome) (ms : Z)
             (rest : list Z),
         last_gps_utc a = Some g ->
         Forall (fun ev => event_fix ev = None) evs ->
         take_out k (timers (run a evs)) = Some (ms, rest) ->
         last_gps_utc (run a evs) = Some g
         /\ clock_mutations (out (step (run a evs) (EvTimer k c)))
            = (clock_mutations (out (run a evs))
               ++ [clock_call (use_local_time_var (run a evs)) g])%list).
Proof.
  split; [ | split; [ | split; [ | split; [ | split; [ | split]]]]].
  - intros g. reflexivity.
  - intros g Hg. unfold resolve_instant. rewrite Hg. reflexivity.
  - intros c ovr g Hres Hutc Hrange.
    rewrite clock_mutations_sync_effects, Hres, Hutc. unfold clock_call.
    rewrite (fill_SYSTEMTIME_fields g Hrange).
    split; [reflexivity | apply SYSTEMTIME_time_of_day].
  - intros c ovr g Hres Hlocal.
    rewrite clock_mutations_sync_effects, Hres, Hlocal. unfold clock_call.
    unfold astimezone, Datetime.replace_tzinfo_none, Datetime.replace_tzinfo_utc,
      Datetime.instant, Datetime.add. simpl.
    replace (g - 0) with g by lia. reflexivity.
  - intros c ovr b. apply sync_effects_reads.
  - intros c ovr d. apply sync_effects_reads; reflexivity.
  - intros g evs k c ms rest Hg Hall Hk.
    destruct (run_no_fix evs a Hall) as (El & _ & _ & _).
    rewrite Hg in El. split; [exact El | ].
    unfold step. rewrite Hk. unfold auto_sync_callback.
    rewrite schedule_auto_sync_keeps, sync_time_emit. compute_state.
    rewrite clock_mutations_app, clock_mutations_sync_effects.
    unfold resolve_instant. compute_state. rewrite El. reflexivity.
Qed.

End Scheduler.

(** * The theorems on the reference instance *)

(** The literal scenario: the sentence read between the ticks 119.0 and
    119.1 of an application anchored at tick 100 and 14:35:00 local time. *)
Lemma offset_tracker_update_witness :
  last_gps_utc
    (snd (@handle_line Reference.collaborators Returns 119%Q Reference.sentence
            (1191 # 10)%Q false (Reference.app1994 Reference.default_config)))
  = Some Reference.fix1994
  /\ exists d : Q,
      last_delta_sec
        (snd (@handle_line Reference.collaborators Returns 119%Q Reference.sentence
                (1191 # 10)%Q false (Reference.app1994 Reference.default_config)))
      = Some d
      /\ (d == - (5 # 100))%Q.
Proof.
  destruct (@offset_tracker_update Reference.collaborators Returns 119%Q
              Reference.sentence (1191 # 10)%Q false
              (Reference.app1994 Reference.default_config) Reference.fix1994
              ltac:(vm_compute; reflexivity))
    as (Hfix & d & Hd & _ & _ & Hscenario).
  split; [exact Hfix | ].
  exists d. split; [exact Hd | ].
  apply Hscenario; vm_compute; reflexivity.
Defined.



(** The tick 119.05 is 19.05 s after the anchor. *)
Lemma clock_bridge_witness :
  @perf_to_system_time (Reference.app1994 Reference.default_config) (2381 # 20)%Q
  = Datetime.mk 1994 3 23 14 35 19 50000
  /\ @perf_to_system_time (Reference.app1994 Reference.default_config) 119%Q
     <= @perf_to_system_time (Reference.app1994 Reference.default_config) (2381 # 20)%Q.
Proof.
  destruct (@clock_bridge Reference.collaborators
              (Reference.app1994 Reference.default_config))
    as (_ & _ & Hwhole & _ & _ & Hmono).
  split.
  - apply (Hwhole (2381 # 20)%Q 19050000). vm_compute. reflexivity.
  - apply Hmono. vm_compute. discriminate.
Defined.

(** A connection that has delivered only a GGA sentence and a void RMC
    sentence, with a manual and a timed synchronisation already refused. *)
Lemma sync_without_fix_fails_witness :
  last_gps_utc
    (@run Reference.collaborators (init Reference.auto_config 100%Q (Datetime.mk 2024 1 1 10 0 0 0))
       [EvConnect; EvIteration (Reference.reads Reference.gga_sentence);
        EvIteration (Reference.reads Reference.void_sentence);
        EvSyncButton Returns; EvTimer 0 Returns]) = None
  /\ clock_mutations
       (out (@sync_time Reference.collaborators Returns None
               (@run Reference.collaborators
                  (init Reference.auto_config 100%Q (Datetime.mk 2024 1 1 10 0 0 0))
                  [EvConnect; EvIteration (Reference.reads Reference.gga_sentence);
                   EvIteration (Reference.reads Reference.void_sentence);
                   EvSyncButton Returns; EvTimer 0 Returns]))) = [].
Proof.
  destruct (@sync_without_fix_fails Reference.collaborators Reference.auto_config 100%Q
              (Datetime.mk 2024 1 1 10 0 0 0)
              [EvConnect; EvIteration (Reference.reads Reference.gga_sentence);
               EvIteration (Reference.reads Reference.void_sentence);
               EvSyncButton Returns; EvTimer 0 Returns]
              Returns
              ltac:(repeat constructor; vm_compute; reflexivity))
    as (Hnone & _ & _ & Hclock).
  split; [exact Hnone | exact Hclock].
Defined.

(** The same instant applied under either preference. *)
Lemma sync_applies_representation_witness :
  clock_mutations
    (@sync_effects Reference.collaborators Returns (Some Reference.fix1994)
       (Reference.app0 Reference.default_config))
  = [SetLocalTime (mkSYSTEMTIME 1994 3 0 23 14 35 19 0)]
  /\ clock_mutations
       (@sync_effects Reference.collaborators Returns (Some Reference.fix1994)
          (Reference.app0 Reference.auto_config))
     = [SetSystemTime (mkSYSTEMTIME 1994 3 0 23 12 35 19 0)].
Proof.
  split.
  - destruct (@sync_applies_representation Reference.collaborators Returns
                (Some Reference.fix1994) (Reference.app0 Reference.default_config)
                Reference.fix1994 eq_refl) as (_ & _ & Hlocal & _).
    destruct (Hlocal ltac:(vm_compute; reflexivity)) as [Hcall _].
    rewrite Hcall. vm_compute. reflexivity.
  - destruct (@sync_applies_representation Reference.collaborators Returns
                (Some Reference.fix1994) (Reference.app0 Reference.auto_config)
                Reference.fix1994 eq_refl) as (_ & _ & _ & Hutc).
    destruct (Hutc ltac:(vm_compute; reflexivity)) as [Hcall _].
    rewrite Hcall. vm_compute. reflexivity.
Defined.

(** Ten fixes in one session, with a reconnection in between: one
    synchronisation. *)
Lemma auto_sync_once_per_session_witness :
  auto_syncs
    (out (@run Reference.collaborators (Reference.app0 Reference.auto_config)
            Reference.session))
  = [SyncCalled (Some Reference.fix1994)].
Proof.
  destruct (@auto_sync_once_per_session Reference.collaborators
              (Reference.app0 Reference.auto_config) Reference.session
              ltac:(vm_compute; reflexivity) ltac:(vm_compute; reflexivity)
              ltac:(vm_compute; reflexivity)) as [_ Hfirst].
  destruct (Hfirst ltac:(vm_compute; reflexivity) ltac:(vm_compute; reflexivity)
              [EvIteration (Reference.reads Reference.gga_sentence)]
              (repeat (EvIteration (Reference.reads Reference.sentence)) 2
               ++ EvIteration Reference.unplugged
               :: repeat (EvIteration (Reference.reads Reference.sentence)) 7)%list
              (Reference.reads Reference.sentence) 119%Q (1191 # 10)%Q
              Reference.sentence Reference.fix1994
              ltac:(vm_compute; reflexivity)
              ltac:(repeat constructor; vm_compute; reflexivity)
              eq_refl eq_refl ltac:(vm_compute; reflexivity))
    as (_ & _ & Hall).
  exact Hall.
Defined.





(** A display string that holds a time although no fix is stored. *)
Lemma sync_fallback_display_string_witness :
  clock_mutations
    (@sync_effects Reference.collaborators Returns None
       (set_gps_time_str "1994-03-23 12:35:19 UTC" (Reference.app0 Reference.default_config)))
  = [SetLocalTime (mkSYSTEMTIME 1994 3 0 23 14 35 19 0)].
Proof.
  destruct (@sync_fallback_display_string Reference.collaborators Returns
              (set_gps_time_str "1994-03-23 12:35:19 UTC"
                 (Reference.app0 Reference.default_config))
              ltac:(vm_compute; reflexivity)) as (Hparsed & _).
  destruct (Hparsed Reference.fix1994 ltac:(vm_compute; reflexivity)
              ltac:(vm_compute; reflexivity)) as (_ & Hcall & _).
  rewrite Hcall. vm_compute. reflexivity.
Defined.

(** The first fix is applied on arrival and again, unchanged, when the
    timer fires after later events. *)
Lemma sync_applies_fix_unadjusted_witness :
  clock_mutations
    (out (@run Reference.collaborators (Reference.app0 Reference.auto_config)
            [EvIteration (Reference.reads Reference.sentence);
             EvIteration (Reference.reads Reference.gga_sentence);
             EvSetAutoConnect false;
             EvTimer 0 Returns]))
  = [SetSystemTime (mkSYSTEMTIME 1994 3 0 23 12 35 19 0);
     SetSystemTime (mkSYSTEMTIME 1994 3 0 23 12 35 19 0)].
Proof.
  destruct (@sync_applies_fix_unadjusted Reference.collaborators
              (@run Reference.collaborators (Reference.app0 Reference.auto_config)
                 [EvIteration (Reference.reads Reference.sentence)]))
    as (_ & _ & _ & _ & _ & _ & Hstale).
  destruct (Hstale Reference.fix1994
              [EvIteration (Reference.reads Reference.gga_sentence); EvSetAutoConnect false]
              0%nat Returns 1800000 []
              ltac:(vm_compute; reflexivity)
              ltac:(repeat constructor; vm_compute; reflexivity)
              ltac:(vm_compute; reflexivity)) as (_ & Hcall).
  vm_compute in Hcall. exact (eq_trans (eq_refl : _ = _) Hcall).
Defined.

(** * Further properties of the program *)

Section Acquisition.

Context `{Collaborators}.

Lemma set_read_thread_idem (a : App) (f : option bool) :
  read_thread a = f -> set_read_thread f a = a.
Proof. destruct a. simpl. intros <-. reflexivity. Qed.

(** One pass with the port closed and the opening refused. *)
Lemma open_failure_pass (a : App) (i : iteration) (e : string) (f : bool) :
  read_thread a = Some f ->
  keep_reading a = true ->
  ser_open a = false ->
  it_open i = Raises e ->
  step a (EvIteration i) = emit (open_failure a e) a.
Proof.
  intros Hr Hk Hs Ho.
  unfold step, gps_thread_loop_step, gps_thread_loop_body, log_status, open_failure.
  rewrite Hr, Hk, Hs, Ho. cbn [negb]. cbv zeta. cbn [fst snd].
  rewrite !emit_emit. apply set_read_thread_idem. exact Hr.
Qed.

(** X1: while the port cannot be opened the reader thread keeps trying:
    each pass attempts the opening, logs the error and sleeps 3 s, and [n]
    such passes in a row leave everything else as it was, the thread alive
    and the port closed, whatever [n] is. *)
Theorem open_failure_retries (a : App) (i : iteration) (e : string) (f : bool) (n : nat) :
  read_thread a = Some f ->
  keep_reading a = true ->
  ser_open a = false ->
  it_open i = Raises e ->
  run a (repeat (EvIteration i) n)
  = emit (concat (repeat (open_failure a e) n)) a.
Proof.
  intros Hr Hk Hs Ho. revert a Hr Hk Hs.
  induction n as [ | n IH]; intros a Hr Hk Hs.
  - simpl. symmetry. apply emit_nil.
  - cbn [repeat]. rewrite run_cons, (open_failure_pass a i e f Hr Hk Hs Ho).
    rewrite (IH (emit (open_failure a e) a) Hr Hk Hs).
    rewrite emit_emit. reflexivity.
Qed.

(** What a pass does to the record of actions when it reads a line. *)
Lemma handle_line_out (c : call_outcome) (t_start : Q) (text : string) (t_end : Q)
    (first : bool) (a : App) :
  exists es, out (snd (handle_line c t_start text t_end first a)) = (out a ++ es)%list.
Proof.
  rewrite handle_line_decode. destruct (decode text) as [g | ]; cbv zeta.
  - destruct (auto_connect_var a && negb first); cbn [snd].
    + rewrite sync_time_emit. eexists. reflexivity.
    + exists []. compute_state. rewrite app_nil_r. reflexivity.
  - exists []. destruct (line_raises text); cbn [snd]; rewrite app_nil_r; reflexivity.
Qed.

(** X2: a read that raises is logged, the port is closed and marked
    closed, the thread sleeps 3 s and stays alive, and the fix, the offset
    and every other part of the state are kept; the next pass begins by
    opening the port again. *)
Theorem read_error_recovery (a : App) (i : iteration) (e : string) (f : bool) :
  read_thread a = Some f ->
  keep_reading a = true ->
  ser_open a = true \/ it_open i = Returns ->
  it_read i = ReadRaises e ->
  step a (EvIteration i)
  = set_ser_open false
      (emit ((if ser_open a then [] else [SerialOpen (config_com_port a)])
             ++ [LogStatus ("Read error: " ++ e); SerialClose; Sleep 3]) a)
  /\ (forall j : iteration,
         it_open j = Returns ->
         exists rest,
           out (step (step a (EvIteration i)) (EvIteration j))
           = (out (step a (EvIteration i)) ++ SerialOpen (config_com_port a) :: rest)%list).
Proof.
  intros Hr Hk Hopen Hread.
  assert (Hstep :
    step a (EvIteration i)
    = set_ser_open false
        (emit ((if ser_open a then [] else [SerialOpen (config_com_port a)])
               ++ [LogStatus ("Read error: " ++ e); SerialClose; Sleep 3]) a)).
  { unfold step, gps_thread_loop_step, gps_thread_loop_body, read_error, log_status.
    rewrite Hr, Hk, Hread.
    destruct (ser_open a) eqn:Hs; cbn [negb].
    - cbv zeta. cbn [fst snd].
      destruct a. simpl in *. subst. unfold emit, set_out. simpl.
      rewrite <- !app_assoc. reflexivity.
    - destruct Hopen as [Hopen | Hopen]; [discriminate Hopen | ].
      rewrite Hopen. cbv zeta. cbn [fst snd].
      destruct a. simpl in *. subst. unfold emit, set_out. simpl.
      rewrite <- !app_assoc. reflexivity. }
  split; [exact Hstep | ].
  intros j Hj. rewrite Hstep.
  remember (set_ser_open false
              (emit ((if ser_open a then [] else [SerialOpen (config_com_port a)])
                     ++ [LogStatus ("Read error: " ++ e); SerialClose; Sleep 3]) a))
    as a1 eqn:Ea1.
  assert (Hr1 : read_thread a1 = Some f) by (subst a1; exact Hr).
  assert (Hk1 : keep_reading a1 = true) by (subst a1; exact Hk).
  assert (Hs1 : ser_open a1 = false) by (subst a1; reflexivity).
  assert (Hp1 : config_com_port a1 = config_com_port a) by (subst a1; reflexivity).
  clear Ea1.
  unfold step, gps_thread_loop_step, gps_thread_loop_body, read_error, log_status.
  rewrite Hr1, Hk1, Hs1, Hj, Hp1. cbn [negb]. cbv zeta.
  destruct (it_read j) as [t_start text t_end | e'].
  - match goal with
    | |- context [handle_line ?c ?ts ?tx ?te ?fl ?st] =>
        destruct (handle_line_out c ts tx te fl st) as [es Hes];
        destruct (fst (handle_line c ts tx te fl st))
    end;
      cbn [out set_read_thread set_ser_open emit set_out fst snd]; rewrite Hes;
      cbn [out set_ser_open emit set_out]; rewrite <- ?app_assoc;
      eexists; reflexivity.
  - cbn [out set_read_thread set_ser_open emit set_out fst snd].
    rewrite <- !app_assoc. eexists. reflexivity.
Qed.

End Acquisition.

Section Sessions.

Context `{Collaborators}.

Ltac rewrite_tests :=
  repeat match goal with
    | E : ?x = _ |- context [match ?x with _ => _ end] => rewrite E
    end.

Lemma idle_reader_step (a : App) (i : iteration) :
  read_thread a = None -> step a (EvIteration i) = a.
Proof. intros Hr. unfold step, gps_thread_loop_step. rewrite Hr. reflexivity. Qed.

Lemma disconnect_form (a : App) :
  disconnect_from_gps a
  = set_read_thread None
      (set_ser_open false
         (set_keep_reading false
            (emit ((if ser_open a then [SerialClose] else [])
                   ++ [LogStatus "Disconnected from GPS."]) a))).
Proof.
  unfold disconnect_from_gps, log_status. cbv zeta.
  destruct a as [ci cp sp sb au ul gs lg ld pb tb kr rt so tm o].
  destruct so; unfold emit, set_out; simpl; rewrite <- ?app_assoc; reflexivity.
Qed.

(** X3: [disconnect_from_gps] stops the reader thread, closes the port
    once if it is open and not at all otherwise, and keeps the fix; no pass
    of the reader loop does anything afterwards, a second disconnect closes
    nothing, and a later [sync_time()] still applies the fix that was stored
    before the disconnect. *)
Theorem disconnect_stops_reader (a : App) :
  read_thread (disconnect_from_gps a) = None
  /\ keep_reading (disconnect_from_gps a) = false
  /\ ser_open (disconnect_from_gps a) = false
  /\ out (disconnect_from_gps a)
     = (out a ++ (if ser_open a then [SerialClose] else [])
        ++ [LogStatus "Disconnected from GPS."])%list
  /\ last_gps_utc (disconnect_from_gps a) = last_gps_utc a
  /\ (forall passes : list iteration,
         run (disconnect_from_gps a) (map EvIteration passes) = disconnect_from_gps a)
  /\ out (disconnect_from_gps (disconnect_from_gps a))
     = (out (disconnect_from_gps a) ++ [LogStatus "Disconnected from GPS."])%list
  /\ (forall (c : call_outcome) (g : datetime),
         last_gps_utc a = Some g ->
         clock_mutations (sync_effects c None (disconnect_from_gps a))
         = [clock_call (use_local_time_var a) g]).
Proof.
  assert (Hr : read_thread (disconnect_from_gps a) = None)
    by (rewrite disconnect_form; reflexivity).
  assert (Hl : last_gps_utc (disconnect_from_gps a) = last_gps_utc a)
    by (rewrite disconnect_form; reflexivity).
  assert (Hu : use_local_time_var (disconnect_from_gps a) = use_local_time_var a)
    by (rewrite disconnect_form; reflexivity).
  assert (Hs : ser_open (disconnect_from_gps a) = false)
    by (rewrite disconnect_form; reflexivity).
  split; [exact Hr | ].
  split; [rewrite disconnect_form; reflexivity | ].
  split; [exact Hs | ].
  split; [rewrite disconnect_form; reflexivity | ].
  split; [exact Hl | ].
  split.
  { intros passes. induction passes as [ | i passes IH]; [reflexivity | ].
    cbn [map]. rewrite run_cons, (idle_reader_step _ i Hr). exact IH. }
  split.
  { rewrite (disconnect_form (disconnect_from_gps a)), Hs. reflexivity. }
  intros c g Hg.
  rewrite clock_mutations_sync_effects. unfold resolve_instant.
  rewrite Hl, Hg, Hu. reflexivity.
Qed.

Lemma step_auto_sync_budget (a : App) (ev : event) :
  (length (auto_syncs (out (step a ev))) + pending_auto_sync (step a ev)
   <= length (auto_syncs (out a)) + pending_auto_sync a
      + (if is_connect ev then 1 else 0))%nat.
Proof.
  destruct ev; cbn [is_connect]; step_cases; unfold pending_auto_sync;
    compute_state; rewrite_tests;
    rewrite ?auto_syncs_app, ?auto_syncs_sync_effects;
    cbn [auto_syncs filter is_auto_sync];
    rewrite ?length_app; cbn [length];
    repeat match goal with
      | E : _ && _ = true |- _ => apply andb_true_iff in E; destruct E
      | E : negb _ = true |- _ => apply negb_true_iff in E
      end;
    subst; try congruence; lia.
Qed.

(** X4: over any sequence of events, the synchronisations started by the
    reader thread number at most one per CONNECT click, plus one if a
    session that has not yet fired was already running; from start-up, at
    most one more than the CONNECT clicks. *)
Theorem auto_syncs_bounded_by_connects (a : App) (evs : list event) :
  ((length (auto_syncs (out (run a evs))) + pending_auto_sync (run a evs)
    <= length (auto_syncs (out a)) + pending_auto_sync a
       + length (filter is_connect evs))%nat)
  /\ (forall (cfg : Config) (perf_now : Q) (now : datetime),
         (length (auto_syncs (out (run (init cfg perf_now now) evs)))
          <= 1 + length (filter is_connect evs))%nat).
Proof.
  assert (Hgen : forall (l : list event) (b : App),
    (length (auto_syncs (out (run b l))) + pending_auto_sync (run b l)
     <= length (auto_syncs (out b)) + pending_auto_sync b
        + length (filter is_connect l))%nat).
  { induction l as [ | ev l IH]; intros b; [simpl; lia | ].
    rewrite run_cons. pose proof (IH (step b ev)) as H1.
    pose proof (step_auto_sync_budget b ev) as H2.
    cbn [filter]. destruct (is_connect ev); cbn [length]; lia. }
  split; [apply Hgen | ].
  intros cfg perf_now now.
  pose proof (Hgen evs (init cfg perf_now now)) as Hb.
  assert (Hinit : auto_syncs (out (init cfg perf_now now)) = []).
  { rewrite init_unfold; unfold connect_to_gps, log_status. cbv zeta. compute_state.
    destruct (auto_connect_sync cfg); [ | reflexivity].
    compute_state. destruct (PyStr.truthy (com_port cfg)); reflexivity. }
  rewrite Hinit in Hb. cbn [length] in Hb.
  assert (Hp : (pending_auto_sync (init cfg perf_now now) <= 1)%nat).
  { unfold pending_auto_sync.
    destruct (read_thread (init cfg perf_now now)) as [[ | ] | ]; lia. }
  lia.
Qed.

Lemma step_tracker_consistent (a : App) (ev : event) :
  tracker_consistent a -> tracker_consistent (step a ev).
Proof.
  intros Ha.
  destruct ev; step_cases; unfold tracker_consistent in *; compute_state;
    try exact Ha; (split; [reflexivity | discriminate]).
Qed.

(** X5: in every state reached from start-up the GPS-time display and the
    tracker agree (a stored fix is the one displayed and has an offset; no
    fix means the placeholder and no offset), so that [sync_time()] resolves
    exactly the stored fix: the display-string fallback never supplies an
    instant, and the "no valid GPS time" error appears exactly when no fix
    is stored. *)
Theorem tracker_display_agree (cfg : Config) (perf_now : Q) (now : datetime)
    (evs : list event) (c : call_outcome) :
  tracker_consistent (run (init cfg perf_now now) evs)
  /\ resolve_instant None (run (init cfg perf_now now) evs)
     = last_gps_utc (run (init cfg perf_now now) evs)
  /\ (In no_fix_available (sync_effects c None (run (init cfg perf_now now) evs))
      <-> last_gps_utc (run (init cfg perf_now now) evs) = None).
Proof.
  assert (Hinit : tracker_consistent (init cfg perf_now now)).
  { rewrite init_unfold; unfold tracker_consistent, connect_to_gps, log_status.
    cbv zeta. compute_state. destruct (auto_connect_sync cfg); [ | split; reflexivity].
    compute_state. destruct (PyStr.truthy (com_port cfg)); split; reflexivity. }
  assert (Hrun : forall (l : list event) (b : App),
            tracker_consistent b -> tracker_consistent (run b l)).
  { induction l as [ | ev l IH]; intros b Hb; [exact Hb | ].
    rewrite run_cons. apply IH. apply step_tracker_consistent. exact Hb. }
  pose proof (Hrun evs _ Hinit) as Hc.
  set (a := run (init cfg perf_now now) evs) in *.
  assert (Hres : resolve_instant None a = last_gps_utc a).
  { unfold resolve_instant. unfold tracker_consistent in Hc.
    destruct (last_gps_utc a) as [g | ]; [reflexivity | ].
    destruct Hc as [-> _]. reflexivity. }
  split; [exact Hc | ]. split; [exact Hres | ].
  pose proof (sync_effects_resolved c None a) as Heff. rewrite Hres in Heff.
  destruct (last_gps_utc a) as [g | ] eqn:Hl.
  - split; [ | discriminate].
    intros Hin. exfalso.
    pose proof (sync_effects_form c None a g) as Hform. cbv zeta in Hform.
    rewrite Hform in Hin by (rewrite Hres; reflexivity).
    unfold no_fix_available in Hin.
    destruct (use_local_time_var a), c; simpl in Hin;
      repeat (destruct Hin as [Hin | Hin]; [discriminate Hin | ]); exact Hin.
  - split; [reflexivity | ]. intros _. rewrite Heff. right. left. reflexivity.
Qed.

End Sessions.

Section Fixes.

Context `{Collaborators}.

(** With the instant given, [sync_time] reads the preference only. *)
Lemma sync_effects_given (c : call_outcome) (g : datetime) (a b : App) :
  use_local_time_var b = use_local_time_var a ->
  sync_effects c (Some g) b = sync_effects c (Some g) a.
Proof.
  intros Hu.
  rewrite (sync_effects_form c (Some g) a g eq_refl),
    (sync_effects_form c (Some g) b g eq_refl).
  cbv zeta. rewrite Hu. reflexivity.
Qed.

(** A pass of a live reader thread that reads a line carrying a fix. *)
Lemma fix_pass_form (a : App) (i : iteration) (t_start : Q) (text : string) (t_end : Q)
    (g : datetime) (f : bool) :
  read_thread a = Some f ->
  keep_reading a = true ->
  ser_open a = true \/ it_open i = Returns ->
  it_read i = ReadLine t_start text t_end ->
  decode text = Some g ->
  exists (d : Q) (opened : list effect),
    opened = (if ser_open a then [] else [SerialOpen (config_com_port a)])
    /\ step a (EvIteration i)
       = (if auto_connect_var a && negb f
          then set_read_thread (Some true)
                 (emit (opened ++ sync_effects (it_ctypes i) (Some g) a)
                    (set_ser_open true
                       (set_last_delta_sec (Some d)
                          (set_gps_time_str (Datetime.strftime_utc g)
                             (set_last_gps_utc (Some g) a)))))
          else emit opened
                 (set_ser_open true
                    (set_last_delta_sec (Some d)
                       (set_gps_time_str (Datetime.strftime_utc g)
                          (set_last_gps_utc (Some g) a))))).
Proof.
  intros Hr Hk Hopen Hread Hdec.
  unfold step, gps_thread_loop_step, gps_thread_loop_body.
  rewrite Hr, Hk, Hread.
  destruct (ser_open a) eqn:Hso; cbn [negb].
  - cbv zeta. rewrite handle_line_decode, Hdec. cbv zeta.
    exists (Datetime.total_seconds
              (Datetime.aware_sub (astimezone (Datetime.replace_tzinfo_utc g))
                 (astimezone_naive (perf_to_system_time a ((t_start + t_end) / 2))))).
    exists []. split; [reflexivity | ].
    destruct (auto_connect_var a && negb f) eqn:Hfire; cbn [fst snd].
    + rewrite sync_time_emit, (sync_effects_given _ g a) by reflexivity.
      destruct a. cbn [ser_open] in Hso. subst. reflexivity.
    + apply andb_false_iff in Hfire.
      destruct a. cbn [ser_open read_thread] in Hso, Hr. subst.
      unfold emit, set_out. cbn. rewrite app_nil_r. reflexivity.
  - destruct Hopen as [Hopen | Hopen]; [discriminate Hopen | ].
    rewrite Hopen. cbv zeta. rewrite handle_line_decode, Hdec. cbv zeta.
    exists (Datetime.total_seconds
              (Datetime.aware_sub (astimezone (Datetime.replace_tzinfo_utc g))
                 (astimezone_naive (perf_to_system_time a ((t_start + t_end) / 2))))).
    exists [SerialOpen (config_com_port a)]. split; [reflexivity | ].
    cbn [auto_connect_var set_ser_open emit set_out].
    destruct (auto_connect_var a && negb f) eqn:Hfire; cbn [fst snd].
    + rewrite sync_time_emit, (sync_effects_given _ g a) by reflexivity.
      destruct a. unfold emit, set_out. cbn -[sync_effects].
      rewrite <- app_assoc. reflexivity.
    + destruct a. cbn [read_thread] in Hr. subst. reflexivity.
Qed.

(** X6: a pass of the reader thread that reads a fix stores it, shows it
    and leaves the port open; it starts a synchronisation exactly when the
    auto-connect-and-sync flag is on and no synchronisation was started
    before in the session, and that synchronisation sets the clock to the
    fix just read under the current local/UTC preference; otherwise the
    clock is left alone. *)
Theorem fix_pass (a : App) (i : iteration) (t_start : Q) (text : string) (t_end : Q)
    (g : datetime) (f : bool) :
  read_thread a = Some f ->
  keep_reading a = true ->
  ser_open a = true \/ it_open i = Returns ->
  it_read i = ReadLine t_start text t_end ->
  decode text = Some g ->
  last_gps_utc (step a (EvIteration i)) = Some g
  /\ gps_time_str (step a (EvIteration i)) = Datetime.strftime_utc g
  /\ ser_open (step a (EvIteration i)) = true
  /\ keep_reading (step a (EvIteration i)) = true
  /\ (auto_connect_var a = true /\ f = false ->
      read_thread (step a (EvIteration i)) = Some true
      /\ auto_syncs (out (step a (EvIteration i)))
         = (auto_syncs (out a) ++ [SyncCalled (Some g)])%list
      /\ clock_mutations (out (step a (EvIteration i)))
         = (clock_mutations (out a) ++ [clock_call (use_local_time_var a) g])%list)
  /\ (auto_connect_var a = false \/ f = true ->
      read_thread (step a (EvIteration i)) = Some f
      /\ auto_syncs (out (step a (EvIteration i))) = auto_syncs (out a)
      /\ clock_mutations (out (step a (EvIteration i))) = clock_mutations (out a)).
Proof.
  intros Hr Hk Hopen Hread Hdec.
  destruct (fix_pass_form a i t_start text t_end g f Hr Hk Hopen Hread Hdec)
    as (d & opened & Hopened & Hstep).
  assert (Hquiet : auto_syncs opened = [] /\ clock_mutations opened = [])
    by (subst opened; destruct (ser_open a); split; reflexivity).
  destruct Hquiet as [Hq1 Hq2].
  rewrite Hstep.
  split; [destruct (auto_connect_var a && negb f); reflexivity | ].
  split; [destruct (auto_connect_var a && negb f); reflexivity | ].
  split; [destruct (auto_connect_var a && negb f); reflexivity | ].
  split; [destruct (auto_connect_var a && negb f); exact Hk | ].
  split.
  - intros [Ha ->]. rewrite Ha. cbn [andb negb]. compute_state.
    rewrite !auto_syncs_app, !clock_mutations_app, Hq1, Hq2.
    rewrite auto_syncs_sync_effects, clock_mutations_sync_effects.
    cbn [resolve_instant app]. repeat split; reflexivity.
  - intros Hoff.
    assert (Hno : auto_connect_var a && negb f = false).
    { destruct Hoff as [-> | ->]; [reflexivity | apply andb_false_r]. }
    rewrite Hno. compute_state.
    rewrite auto_syncs_app, clock_mutations_app, Hq1, Hq2, !app_nil_r.
    split; [ | split; reflexivity].
    destruct a. simpl in *. exact Hr.
Qed.

(** X7: the flag is read at every fix.  When it is off at the first fix
    of a session, that fix starts no synchronisation; switching the flag on
    afterwards makes the next fix start one, with that later fix. *)
Theorem auto_sync_after_enabling (a : App) (i1 i2 : iteration) (s1 e1 s2 e2 : Q)
    (text1 text2 : string) (g1 g2 : datetime) :
  read_thread a = Some false ->
  keep_reading a = true ->
  auto_connect_var a = false ->
  ser_open a = true \/ it_open i1 = Returns ->
  it_read i1 = ReadLine s1 text1 e1 ->
  decode text1 = Some g1 ->
  it_read i2 = ReadLine s2 text2 e2 ->
  decode text2 = Some g2 ->
  auto_syncs (out (step a (EvIteration i1))) = auto_syncs (out a)
  /\ auto_syncs (out (run a [EvIteration i1; EvSetAutoConnect true; EvIteration i2]))
     = (auto_syncs (out a) ++ [SyncCalled (Some g2)])%list
  /\ clock_mutations (out (run a [EvIteration i1; EvSetAutoConnect true; EvIteration i2]))
     = (clock_mutations (out a) ++ [clock_call (use_local_time_var a) g2])%list.
Proof.
  intros Hr Hk Ha Hopen Hread1 Hdec1 Hread2 Hdec2.
  destruct (fix_pass_form a i1 s1 text1 e1 g1 false Hr Hk Hopen Hread1 Hdec1)
    as (d1 & opened & Hopened & Hstep1).
  rewrite Ha in Hstep1. cbn [andb] in Hstep1.
  assert (Hquiet : auto_syncs opened = [] /\ clock_mutations opened = [])
    by (subst opened; destruct (ser_open a); split; reflexivity).
  destruct Hquiet as [Hq1 Hq2].
  split.
  { rewrite Hstep1. compute_state. rewrite auto_syncs_app, Hq1, app_nil_r. reflexivity. }
  rewrite !run_cons. change (run ?x []) with x.
  remember (step (step a (EvIteration i1)) (EvSetAutoConnect true)) as b eqn:Eb.
  assert (Hb : read_thread b = Some false /\ keep_reading b = true
               /\ auto_connect_var b = true /\ ser_open b = true
               /\ use_local_time_var b = use_local_time_var a
               /\ out b = (out a ++ opened)%list).
  { subst b. rewrite Hstep1. cbn [step]. compute_state.
    repeat split; assumption. }
  destruct Hb as (Hrb & Hkb & Hab & Hsb & Hub & Hob).
  destruct (fix_pass_form b i2 s2 text2 e2 g2 false Hrb Hkb (or_introl Hsb) Hread2 Hdec2)
    as (d2 & opened2 & Hopened2 & Hstep2).
  rewrite Hab, Hsb in *. cbn [andb negb] in Hstep2. subst opened2.
  rewrite Hstep2. compute_state. rewrite Hob.
  rewrite !auto_syncs_app, !clock_mutations_app, Hq1, Hq2.
  rewrite auto_syncs_sync_effects, clock_mutations_sync_effects.
  cbn [resolve_instant app auto_syncs clock_mutations filter]. rewrite Hub, !app_nil_r.
  split; reflexivity.
Qed.

Lemma step_keeps_fix (a : App) (ev : event) (g : datetime) :
  last_gps_utc a = Some g -> exists g', last_gps_utc (step a ev) = Some g'.
Proof.
  intros Hg.
  destruct ev; step_cases; compute_state; eexists; first [exact Hg | reflexivity].
Qed.

(** X8: once a fix is stored, no event clears it, whether a disconnect,
    a reconnection or a read error: a fix stays stored whatever happens, so
    [sync_time()] never again reports that no GPS time is available and
    always sets the clock, to the fix stored at that moment. *)
Theorem fix_never_cleared (a : App) (evs : list event) (g : datetime) (c : call_outcome) :
  last_gps_utc a = Some g ->
  exists g' : datetime,
    last_gps_utc (run a evs) = Some g'
    /\ clock_mutations (sync_effects c None (run a evs))
       = [clock_call (use_local_time_var (run a evs)) g']
    /\ ~ In no_fix_available (sync_effects c None (run a evs)).
Proof.
  intros Hg.
  assert (Hkeep : exists g', last_gps_utc (run a evs) = Some g').
  { revert a g Hg. induction evs as [ | ev evs IH]; intros a g Hg.
    - exists g. exact Hg.
    - rewrite run_cons. destruct (step_keeps_fix a ev g Hg) as [g1 Hg1].
      exact (IH _ g1 Hg1). }
  destruct Hkeep as [g' Hg']. exists g'.
  assert (Hres : resolve_instant None (run a evs) = Some g')
    by (unfold resolve_instant; rewrite Hg'; reflexivity).
  split; [exact Hg' | ]. split.
  - rewrite clock_mutations_sync_effects, Hres. reflexivity.
  - intros Hin.
    pose proof (sync_effects_form c None (run a evs) g' Hres) as Hform.
    cbv zeta in Hform. rewrite Hform in Hin. unfold no_fix_available in Hin.
    destruct (use_local_time_var (run a evs)), c; simpl in Hin;
      repeat (destruct Hin as [Hin | Hin]; [discriminate Hin | ]); exact Hin.
Qed.

Lemma sync_calls_app (es fs : list effect) :
  sync_calls (es ++ fs) = (sync_calls es ++ sync_calls fs)%list.
Proof. apply filter_app. Qed.

(** Every call of [sync_time] is recorded once and sets the clock at most
    once. *)
Lemma sync_effects_counts (c : call_outcome) (ovr : option datetime) (a : App) :
  length (sync_calls (sync_effects c ovr a)) = 1%nat
  /\ (length (clock_mutations (sync_effects c ovr a)) <= 1)%nat.
Proof.
  pose proof (sync_effects_resolved c ovr a) as Hs.
  destruct (resolve_instant ovr a) as [g | ] eqn:Hres.
  - pose proof (sync_effects_form c ovr a g Hres) as Hform. cbv zeta in Hform.
    rewrite Hform. destruct (use_local_time_var a), c; split; simpl; lia.
  - rewrite Hs. split; simpl; lia.
Qed.

Lemma step_clock_by_sync (a : App) (ev : event) :
  (length (clock_mutations (out (step a ev))) + length (sync_calls (out a))
   <= length (clock_mutations (out a)) + length (sync_calls (out (step a ev))))%nat.
Proof.
  destruct ev; step_cases; compute_state;
    rewrite ?clock_mutations_app, ?sync_calls_app, ?length_app;
    cbn [clock_mutations sync_calls filter is_clock_mutation is_sync_call length];
    try lia;
    match goal with
    | |- context [sync_effects ?c ?o ?st] =>
        destruct (sync_effects_counts c o st) as [Hone Hmost]
    end; lia.
Qed.

(** X9: the clock is set only from within [sync_time], and each call of
    [sync_time] sets it at most once: over any sequence of events the
    clock-setting calls made are no more than the calls of [sync_time]
    made, and a failed call is not retried. *)
Theorem clock_set_only_by_sync (a : App) (evs : list event) :
  ((length (clock_mutations (out (run a evs))) + length (sync_calls (out a))
    <= length (clock_mutations (out a)) + length (sync_calls (out (run a evs))))%nat)
  /\ (forall (cfg : Config) (perf_now : Q) (now : datetime),
         (length (clock_mutations (out (run (init cfg perf_now now) evs)))
          <= length (sync_calls (out (run (init cfg perf_now now) evs))))%nat)
  /\ (forall (e : string) (ovr : option datetime),
         (length (clock_mutations (sync_effects (Raises e) ovr a)) <= 1)%nat).
Proof.
  assert (Hgen : forall (l : list event) (b : App),
    (length (clock_mutations (out (run b l))) + length (sync_calls (out b))
     <= length (clock_mutations (out b)) + length (sync_calls (out (run b l))))%nat).
  { induction l as [ | ev l IH]; intros b; [simpl; lia | ].
    rewrite run_cons. pose proof (IH (step b ev)). pose proof (step_clock_by_sync b ev).
    lia. }
  split; [apply Hgen | ]. split.
  - intros cfg perf_now now.
    pose proof (Hgen evs (init cfg perf_now now)) as Hb.
    destruct (init_no_fix_yet cfg perf_now now) as (_ & _ & Hc).
    rewrite Hc in Hb. cbn [length] in Hb. lia.
  - intros e ovr. apply sync_effects_counts.
Qed.






End Fixes.

(** ** The structure handed to Windows *)

Lemma ord2ymd_year (o : Z) :
  1 <= o <= 3652059 -> fst (fst (Calendar.ord2ymd o)) <= 9999.
Proof.
  intros Ho. unfold Calendar.ord2ymd, Calendar.DI400Y, Calendar.DI100Y, Calendar.DI4Y.
  cbv zeta.
  destruct ((_ =? 4) || (_ =? 4)) eqn:Hlast; [cbn [fst] | ].
  - Z.to_euclidean_division_equations. lia.
  - apply orb_false_iff in Hlast. destruct Hlast as [H1 H100].
    apply Z.eqb_neq in H1. apply Z.eqb_neq in H100.
    destruct (_ <? _); cbn [fst]; Z.to_euclidean_division_equations; lia.
Qed.

(** X11: for every date-time of the range of [datetime], the structure
    that [set_system_time_utc] and [set_system_time_local] fill holds a
    calendar date and a time of day: year 1 to 9999, month 1 to 12, day 1 to
    31, hour up to 23, minute and second up to 59, milliseconds up to 999;
    the day of the week is 0 whatever the date.  Either function makes its
    one call with that structure, and raises exactly when the call does. *)
Theorem systemtime_fields_in_range (c : call_outcome) (dt : datetime) :
  0 <= dt < datetime_end ->
  let st := fill_SYSTEMTIME dt in
  1 <= wYear st <= 9999
  /\ 1 <= wMonth st <= 12
  /\ 1 <= wDay st <= 31
  /\ wDayOfWeek st = 0
  /\ 0 <= wHour st <= 23
  /\ 0 <= wMinute st <= 59
  /\ 0 <= wSecond st <= 59
  /\ 0 <= wMilliseconds st <= 999
  /\ fst (set_system_time_utc c dt) = [SetSystemTime st]
  /\ fst (set_system_time_local c dt) = [SetLocalTime st]
  /\ (snd (set_system_time_utc c dt) = None <-> c = Returns)
  /\ (snd (set_system_time_local c dt) = None <-> c = Returns).
Proof.
  intros Hdt st. subst st.
  assert (Hcalls : fst (set_system_time_utc c dt) = [SetSystemTime (fill_SYSTEMTIME dt)]
                   /\ fst (set_system_time_local c dt) = [SetLocalTime (fill_SYSTEMTIME dt)]
                   /\ (snd (set_system_time_utc c dt) = None <-> c = Returns)
                   /\ (snd (set_system_time_local c dt) = None <-> c = Returns)).
  { unfold set_system_time_utc, set_system_time_local. cbv zeta.
    destruct c; cbn [fst snd]; repeat split; intros Hc; try reflexivity;
      discriminate Hc. }
  revert Hcalls. generalize (set_system_time_utc c dt), (set_system_time_local c dt).
  intros r1 r2 Hcalls.
  rewrite (fill_SYSTEMTIME_fields dt Hdt) in *.
  cbn [wYear wMonth wDay wDayOfWeek wHour wMinute wSecond wMilliseconds].
  unfold datetime_end in Hdt.
  assert (Hus : Datetime.us_per_day = 86400000000) by reflexivity.
  assert (Ho : 1 <= Datetime.toordinal dt <= 3652059).
  { unfold Datetime.toordinal. rewrite Hus in *.
    pose proof (Z.div_pos dt 86400000000 ltac:(lia) ltac:(lia)).
    assert (dt / 86400000000 < 3652059) by (apply Z.div_lt_upper_bound; lia). lia. }
  pose proof (ord2ymd_bounds _ Ho) as Hb.
  pose proof (ord2ymd_year _ Ho) as Hy.
  unfold Datetime.year, Datetime.month, Datetime.day in *.
  destruct (Calendar.ord2ymd (Datetime.toordinal dt)) as [[y m] d].
  cbn [fst snd] in *.
  pose proof (Z.mod_pos_bound dt 86400000000 ltac:(lia)) as Ht.
  split; [lia | ]. split; [lia | ]. split; [lia | ]. split; [reflexivity | ].
  split.
  { unfold Datetime.hour, Datetime.timepart, Datetime.us_per_second. rewrite Hus.
    change (3600 * 1000000) with 3600000000.
    split; [apply Z.div_pos; lia | ].
    assert (dt mod 86400000000 / 3600000000 < 24)
      by (apply Z.div_lt_upper_bound; lia). lia. }
  split.
  { unfold Datetime.minute.
    pose proof (Z.mod_pos_bound (Datetime.timepart dt / (60 * Datetime.us_per_second)) 60
                  ltac:(lia)). lia. }
  split.
  { unfold Datetime.second.
    pose proof (Z.mod_pos_bound (Datetime.timepart dt / Datetime.us_per_second) 60
                  ltac:(lia)). lia. }
  split.
  { unfold Datetime.microsecond, Datetime.us_per_second.
    pose proof (Z.mod_pos_bound dt 1000000 ltac:(lia)).
    split; [apply Z.div_pos; lia | ].
    assert (dt mod 1000000 / 1000 < 1000) by (apply Z.div_lt_upper_bound; lia). lia. }
  exact Hcalls.
Qed.

(** ** The scheduler and the bridge at their edges *)



Section Edges.

Context `{Collaborators}.



(** X13: whatever the moment of the read window at which the line did
    arrive, the estimate taken at the mid-point is off from the estimate
    at that moment by no more than half the duration of the read, plus one
    microsecond of rounding; and the mid-point estimate lies between the
    estimates at the two ends of the window. *)
Theorem midpoint_within_read_window (a : App) (t_start t_end t : Q) :
  (t_start <= t)%Q ->
  (t <= t_end)%Q ->
  let t_mid := ((t_start + t_end) / 2)%Q in
  perf_to_system_time a t_start <= perf_to_system_time a t_mid
  /\ perf_to_system_time a t_mid <= perf_to_system_time a t_end
  /\ (Qabs (inject_Z (perf_to_system_time a t_mid) - inject_Z (perf_to_system_time a t))
      <= (t_end - t_start) / 2 * inject_Z Datetime.us_per_second + 1)%Q.
Proof.
  intros Hlo Hhi t_mid.
  assert (Hmid : (2 * t_mid == t_start + t_end)%Q) by (subst t_mid; field).
  assert (Hhalf : ((t_end - t_start) / 2 == t_end - t_mid)%Q) by (subst t_mid; field).
  clearbody t_mid.
  assert (Hmono : forall t1 t2 : Q,
             (t1 <= t2)%Q -> perf_to_system_time a t1 <= perf_to_system_time a t2).
  { intros t1 t2 Hle. unfold perf_to_system_time, Datetime.add.
    apply Z.add_le_mono_l. apply timedelta_of_seconds_mono. lra. }
  split; [apply Hmono; lra | ]. split; [apply Hmono; lra | ].
  rewrite Hhalf.
  unfold perf_to_system_time, Datetime.add, Datetime.timedelta_of_seconds.
  change (inject_Z Datetime.us_per_second) with (1000000 # 1)%Q.
  pose proof (round_half_even_near ((t_mid - perf_base a) * (1000000 # 1))) as [Hm1 Hm2].
  pose proof (round_half_even_near ((t - perf_base a) * (1000000 # 1))) as [Ht1 Ht2].
  rewrite !inject_Z_plus.
  apply Qabs_Qle_condition. split; lra.
Qed.


End Edges.

(** ** Whitespace around a line *)

Lemma lstrip_blank_app (l s : string) :
  PyStr.lstrip l = "" -> PyStr.lstrip (l ++ s) = PyStr.lstrip s.
Proof.
  induction l as [ | c l IH]; intros Hl; [reflexivity | ].
  cbn [PyStr.lstrip String.append] in *.
  destruct (PyStr.isspace c); [exact (IH Hl) | discriminate Hl].
Qed.

Lemma rstrip_blank (r : string) : PyStr.lstrip r = "" -> PyStr.rstrip r = "".
Proof.
  induction r as [ | c r IH]; intros Hr; [reflexivity | ].
  cbn [PyStr.lstrip PyStr.rstrip] in *.
  destruct (PyStr.isspace c); [ | discriminate Hr].
  rewrite (IH Hr). reflexivity.
Qed.

Lemma rstrip_app_blank (s r : string) :
  PyStr.lstrip r = "" -> PyStr.rstrip (s ++ r) = PyStr.rstrip s.
Proof.
  intros Hr. induction s as [ | c s IH]; [exact (rstrip_blank r Hr) | ].
  cbn [PyStr.rstrip String.append]. rewrite IH. reflexivity.
Qed.

Lemma strip_app_blank (s r : string) :
  PyStr.lstrip r = "" -> PyStr.strip (s ++ r) = PyStr.strip s.
Proof.
  intros Hr. unfold PyStr.strip. induction s as [ | c s IH].
  - cbn [String.append]. rewrite Hr. reflexivity.
  - cbn [PyStr.lstrip String.append].
    destruct (PyStr.isspace c); [exact IH | ].
    exact (rstrip_app_blank (String c s) r Hr).
Qed.

Lemma strip_padding (l s r : string) :
  PyStr.lstrip l = "" -> PyStr.lstrip r = "" -> PyStr.strip (l ++ s ++ r) = PyStr.strip s.
Proof.
  intros Hl Hr. unfold PyStr.strip at 1. rewrite (lstrip_blank_app l _ Hl).
  exact (strip_app_blank s r Hr).
Qed.

Section Lines.

Context `{Collaborators}.

(** X15: white space around a line plays no part.  A line padded on
    either side with white space, such as the carriage return and line feed
    that end an NMEA sentence, is handled as the bare line is: the same fix
    is decoded from it and the loop leaves the same state; and a line of
    white space only is skipped without any change. *)
Theorem line_padding_ignored (c : call_outcome) (t_start t_end : Q) (l text r : string)
    (first : bool) (a : App) :
  PyStr.lstrip l = "" ->
  PyStr.lstrip r = "" ->
  decode (l ++ text ++ r) = decode text
  /\ handle_line c t_start (l ++ text ++ r) t_end first a
     = handle_line c t_start text t_end first a
  /\ handle_line c t_start (l ++ r) t_end first a = (Normal first, a).
Proof.
  intros Hl Hr.
  assert (Hdec : decode (l ++ text ++ r) = decode text)
    by (unfold decode; rewrite (strip_padding l text r Hl Hr); reflexivity).
  assert (Hraise : line_raises (l ++ text ++ r) = line_raises text)
    by (unfold line_raises; rewrite (strip_padding l text r Hl Hr); reflexivity).
  split; [exact Hdec | ]. split.
  - rewrite !handle_line_decode, Hdec, Hraise. reflexivity.
  - unfold handle_line.
    replace (l ++ r) with (l ++ "" ++ r) by reflexivity.
    rewrite (strip_padding l "" r Hl Hr). reflexivity.
Qed.

(** The reader thread exists exactly while reading is wanted, and the
    port is open only while the thread exists. *)
Lemma step_connection (a : App) (ev : event) :
  (read_thread a = None <-> keep_reading a = false) ->
  (ser_open a = true -> read_thread a <> None) ->
  (read_thread (step a ev) = None <-> keep_reading (step a ev) = false)
  /\ (ser_open (step a ev) = true -> read_thread (step a ev) <> None).
Proof.
  intros H1 H2.
  destruct ev; step_cases; compute_state; intuition congruence.
Qed.

(** X16: from start-up on, whatever the events, the reader thread exists
    exactly while [keep_reading] is set, and the serial port is open only
    while the reader thread exists: no port stays open after a disconnect,
    and none is opened before a connect. *)
Theorem port_open_only_while_connected (cfg : Config) (perf_now : Q) (now : datetime)
    (evs : list event) :
  let a := run (init cfg perf_now now) evs in
  (read_thread a = None <-> keep_reading a = false)
  /\ (ser_open a = true -> read_thread a <> None)
  /\ (read_thread a = None -> forall i : iteration, step a (EvIteration i) = a).
Proof.
  intros a. subst a.
  assert (Hinit : (read_thread (init cfg perf_now now) = None
                   <-> keep_reading (init cfg perf_now now) = false)
                  /\ (ser_open (init cfg perf_now now) = true
                      -> read_thread (init cfg perf_now now) <> None)).
  { rewrite init_unfold; unfold connect_to_gps, log_status. cbv zeta. simpl.
    destruct (auto_connect_sync cfg); simpl;
      [destruct (PyStr.truthy (com_port cfg)); simpl | ];
      (split; [split; intros Hx; first [reflexivity | discriminate Hx]
              | intros Hx; discriminate Hx]). }
  revert Hinit. generalize (init cfg perf_now now) as b.
  induction evs as [ | ev evs IH]; intros b [H1 H2].
  - change (run b []) with b. split; [exact H1 | ]. split; [exact H2 | ].
    intros Hnone i. unfold step, gps_thread_loop_step. rewrite Hnone. reflexivity.
  - rewrite run_cons. apply IH. apply step_connection; assumption.
Qed.

End Lines.

(** * The further properties on the reference instance *)

(** Three passes in a row on a port that another program holds. *)
Lemma open_failure_retries_witness :
  @run Reference.collaborators (Reference.app0 Reference.auto_config)
    (repeat (EvIteration (mkIteration (Raises "could not open port 'COM3'")
                            (ReadRaises "not reached") Returns)) 3)
  = emit (concat (repeat (open_failure (Reference.app0 Reference.auto_config)
                            "could not open port 'COM3'") 3))
      (Reference.app0 Reference.auto_config).
Proof.
  apply (@open_failure_retries Reference.collaborators
           (Reference.app0 Reference.auto_config)
           (mkIteration (Raises "could not open port 'COM3'") (ReadRaises "not reached")
              Returns)
           "could not open port 'COM3'" false 3); reflexivity.
Defined.

(** The receiver is unplugged right after the connection. *)
Lemma read_error_recovery_witness :
  out (@step Reference.collaborators (Reference.app0 Reference.auto_config)
         (EvIteration Reference.unplugged))
  = [LogStatus "Ports refreshed."; LogStatus "Connecting to COM3 at baud=9600...";
     SerialOpen "COM3"; LogStatus "Read error: device disconnected"; SerialClose; Sleep 3].
Proof.
  destruct (@read_error_recovery Reference.collaborators
              (Reference.app0 Reference.auto_config) Reference.unplugged
              "device disconnected" false eq_refl eq_refl (or_intror eq_refl) eq_refl)
    as [Hstep _].
  rewrite Hstep. reflexivity.
Defined.

(** A fix, then a disconnect, then the SYNC button. *)
Lemma disconnect_stops_reader_witness :
  clock_mutations
    (@sync_effects Reference.collaborators Returns None
       (disconnect_from_gps
          (@step Reference.collaborators (Reference.app0 Reference.auto_config)
             (EvIteration (Reference.reads Reference.sentence)))))
  = [SetSystemTime (mkSYSTEMTIME 1994 3 0 23 12 35 19 0)].
Proof.
  destruct (@disconnect_stops_reader Reference.collaborators
              (@step Reference.collaborators (Reference.app0 Reference.auto_config)
                 (EvIteration (Reference.reads Reference.sentence))))
    as (_ & _ & _ & _ & _ & _ & _ & Hsync).
  rewrite (Hsync Returns Reference.fix1994 ltac:(vm_compute; reflexivity)).
  vm_compute. reflexivity.
Defined.

(** The first fix of an auto-connected session. *)
Lemma fix_pass_witness :
  auto_syncs
    (out (@step Reference.collaborators (Reference.app0 Reference.auto_config)
            (EvIteration (Reference.reads Reference.sentence))))
  = [SyncCalled (Some Reference.fix1994)]
  /\ last_gps_utc
       (@step Reference.collaborators (Reference.app0 Reference.auto_config)
          (EvIteration (Reference.reads Reference.sentence)))
     = Some Reference.fix1994.
Proof.
  destruct (@fix_pass Reference.collaborators (Reference.app0 Reference.auto_config)
              (Reference.reads Reference.sentence) 119%Q Reference.sentence (1191 # 10)%Q
              Reference.fix1994 false eq_refl eq_refl (or_intror eq_refl) eq_refl
              ltac:(vm_compute; reflexivity))
    as (Hfix & _ & _ & _ & Hon & _).
  destruct (Hon (conj eq_refl eq_refl)) as (_ & Hauto & _).
  split; [rewrite Hauto; reflexivity | exact Hfix].
Defined.

(** The box is unticked before the first fix and ticked again after it. *)
Lemma auto_sync_after_enabling_witness :
  auto_syncs
    (out (@run Reference.collaborators
            (@step Reference.collaborators (Reference.app0 Reference.auto_config)
               (EvSetAutoConnect false))
            [EvIteration (Reference.reads Reference.sentence); EvSetAutoConnect true;
             EvIteration (Reference.reads Reference.sentence)]))
  = [SyncCalled (Some Reference.fix1994)].
Proof.
  destruct (@auto_sync_after_enabling Reference.collaborators
              (@step Reference.collaborators (Reference.app0 Reference.auto_config)
                 (EvSetAutoConnect false))
              (Reference.reads Reference.sentence) (Reference.reads Reference.sentence)
              119%Q (1191 # 10)%Q 119%Q (1191 # 10)%Q
              Reference.sentence Reference.sentence Reference.fix1994 Reference.fix1994
              eq_refl eq_refl eq_refl (or_intror eq_refl) eq_refl
              ltac:(vm_compute; reflexivity) eq_refl ltac:(vm_compute; reflexivity))
    as (_ & Hlater & _).
  rewrite Hlater. reflexivity.
Defined.

(** A fix, a disconnect, a new connection and a read error. *)
Lemma fix_never_cleared_witness :
  exists g' : datetime,
    last_gps_utc
      (@run Reference.collaborators
         (@step Reference.collaborators (Reference.app0 Reference.auto_config)
            (EvIteration (Reference.reads Reference.sentence)))
         [EvDisconnect; EvConnect; EvIteration Reference.unplugged])
    = Some g'
    /\ clock_mutations
         (@sync_effects Reference.collaborators Returns None
            (@run Reference.collaborators
               (@step Reference.collaborators (Reference.app0 Reference.auto_config)
                  (EvIteration (Reference.reads Reference.sentence)))
               [EvDisconnect; EvConnect; EvIteration Reference.unplugged]))
       = [@clock_call Reference.collaborators
            (use_local_time_var
               (@run Reference.collaborators
                  (@step Reference.collaborators (Reference.app0 Reference.auto_config)
                     (EvIteration (Reference.reads Reference.sentence)))
                  [EvDisconnect; EvConnect; EvIteration Reference.unplugged]))
            g']
    /\ ~ In no_fix_available
           (@sync_effects Reference.collaborators Returns None
              (@run Reference.collaborators
                 (@step Reference.collaborators (Reference.app0 Reference.auto_config)
                    (EvIteration (Reference.reads Reference.sentence)))
                 [EvDisconnect; EvConnect; EvIteration Reference.unplugged])).
Proof.
  exact (@fix_never_cleared Reference.collaborators
           (@step Reference.collaborators (Reference.app0 Reference.auto_config)
              (EvIteration (Reference.reads Reference.sentence)))
           [EvDisconnect; EvConnect; EvIteration Reference.unplugged]
           Reference.fix1994 Returns ltac:(vm_compute; reflexivity)).
Defined.


(** The structure filled from 1994-03-23T12:35:19. *)
Lemma systemtime_fields_in_range_witness :
  fill_SYSTEMTIME Reference.fix1994 = mkSYSTEMTIME 1994 3 0 23 12 35 19 0
  /\ 1 <= wYear (fill_SYSTEMTIME Reference.fix1994) <= 9999
  /\ fst (set_system_time_utc (Raises "access denied") Reference.fix1994)
     = [SetSystemTime (fill_SYSTEMTIME Reference.fix1994)].
Proof.
  pose proof (systemtime_fields_in_range (Raises "access denied") Reference.fix1994
                ltac:(split; [vm_compute; discriminate | vm_compute; reflexivity]))
    as Hrange.
  cbv zeta in Hrange.
  destruct Hrange as (Hyear & _ & _ & _ & _ & _ & _ & _ & Hcall & _).
  split; [vm_compute; reflexivity | ]. split; [exact Hyear | exact Hcall].
Defined.


(** The read between the ticks 119.0 and 119.1, the line having arrived
    at 119.0. *)
Lemma midpoint_within_read_window_witness :
  perf_to_system_time (Reference.app1994 Reference.default_config) 119
  <= perf_to_system_time (Reference.app1994 Reference.default_config)
       ((119 + (1191 # 10)) / 2)
  /\ perf_to_system_time (Reference.app1994 Reference.default_config)
       ((119 + (1191 # 10)) / 2)
     <= perf_to_system_time (Reference.app1994 Reference.default_config) (1191 # 10)
  /\ (Qabs (inject_Z (perf_to_system_time (Reference.app1994 Reference.default_config)
                        ((119 + (1191 # 10)) / 2))
            - inject_Z (perf_to_system_time (Reference.app1994 Reference.default_config) 119))
      <= ((1191 # 10) - 119) / 2 * inject_Z Datetime.us_per_second + 1)%Q.
Proof.
  exact (midpoint_within_read_window (Reference.app1994 Reference.default_config)
           119%Q (1191 # 10)%Q 119%Q
           ltac:(vm_compute; discriminate) ltac:(vm_compute; discriminate)).
Defined.


(** The sentence after a blank and before its carriage return and line
    feed. *)
Lemma line_padding_ignored_witness :
  @decode Reference.collaborators (" " ++ Reference.sentence ++ Reference.blank_line)
  = Some Reference.fix1994.
Proof.
  destruct (@line_padding_ignored Reference.collaborators Returns 119%Q (1191 # 10)%Q
              " " Reference.sentence Reference.blank_line false
              (Reference.app0 Reference.auto_config) eq_refl eq_refl)
    as (Hdec & _).
  rewrite Hdec. vm_compute. reflexivity.
Defined.

(** After a fix and a disconnect, a pass of the reader loop does
    nothing. *)
Lemma port_open_only_while_connected_witness :
  @step Reference.collaborators
    (@run Reference.collaborators
       (init Reference.auto_config 100%Q (Datetime.mk 2024 1 1 10 0 0 0))
       [EvIteration (Reference.reads Reference.sentence); EvDisconnect])
    (EvIteration (Reference.reads Reference.sentence))
  = @run Reference.collaborators
      (init Reference.auto_config 100%Q (Datetime.mk 2024 1 1 10 0 0 0))
      [EvIteration (Reference.reads Reference.sentence); EvDisconnect].
Proof.
  pose proof (@port_open_only_while_connected Reference.collaborators
                Reference.auto_config 100%Q (Datetime.mk 2024 1 1 10 0 0 0)
                [EvIteration (Reference.reads Reference.sentence); EvDisconnect])
    as Hinv.
  cbv zeta in Hinv.
  destruct Hinv as (_ & _ & Hidle).
  apply Hidle. vm_compute. reflexivity.
Defined.
